(** * Querova: a shallow embedding of the question-answering front end

    The development follows the layout of the repository:

    - [JS]              the fragment of the JavaScript runtime the code relies on
                        (truthiness, [String.prototype.trim], [URLSearchParams]);
    - [Api]             [frontend/src/services/api.js];
    - [QuestionUpload]  [frontend/src/components/QuestionUpload.jsx];
    - [DocumentUpload]  [frontend/src/components/DocumentUpload.jsx];
    - [ResultsView]     [frontend/src/components/ResultsView.jsx];
    - [Chunker], [EmbeddingIndex], [Retriever]
                        the retrieval core, whose Python sources are not part
                        of the front end tree.

    Strings are byte strings holding UTF-8 text.  Asynchronous handlers run
    to completion one at a time; they are written in a small effect monad
    that threads the component state and the trace of observable events
    (HTTP requests, toasts, dialogs, callbacks into the parent component). *)

From Stdlib Require Import ZArith QArith Ascii String.
From stdpp Require Import base list strings gmap pretty.
From Equations Require Import Equations.

Local Open Scope string_scope.
Local Open Scope list_scope.
Local Open Scope nat_scope.

(* ===================================================================== *)
(** * The JavaScript runtime fragment                                     *)
(* ===================================================================== *)

Module JS.

(** Primitive values, as they appear in the loosely typed option objects. *)
Inductive Value :=
| Undefined
| Null
| Bool (b : bool)
| Number (q : Q)
| NaN
| Str (s : string).

(** [ToBoolean]: the falsy values are [undefined], [null], [false], [0],
    [NaN] and the empty string. *)
Definition ToBoolean (v : Value) : bool :=
  match v with
  | Undefined | Null | NaN => false
  | Bool b => b
  | Number q => negb (Qeq_bool q 0)
  | Str s => negb (String.eqb s "")
  end.

(** [ToString] on primitives.  The digits of a number are produced by the
    engine ([Number::toString]); that algorithm is taken as a parameter. *)
Definition ToString (Number_toString : Q -> string) (v : Value) : string :=
  match v with
  | Undefined => "undefined"
  | Null => "null"
  | Bool true => "true"
  | Bool false => "false"
  | Number q => Number_toString q
  | NaN => "NaN"
  | Str s => s
  end.

(** ** UTF-8 *)

Definition byte (n : N) : ascii := ascii_of_N n.

Definition utf8 (cp : N) : list ascii :=
  if (cp <? 0x80)%N then [byte cp]
  else if (cp <? 0x800)%N then
    [byte (0xC0 + cp / 64); byte (0x80 + cp mod 64)]
  else if (cp <? 0x10000)%N then
    [byte (0xE0 + cp / 4096); byte (0x80 + (cp / 64) mod 64);
     byte (0x80 + cp mod 64)]
  else
    [byte (0xF0 + cp / 262144); byte (0x80 + (cp / 4096) mod 64);
     byte (0x80 + (cp / 64) mod 64); byte (0x80 + cp mod 64)].

(** ** [String.prototype.trim] *)

(** The code points of ECMAScript's WhiteSpace and LineTerminator
    productions: TAB, LF, VT, FF, CR, SP, NBSP, the Unicode space separators,
    LS, PS and the byte order mark. *)
Definition white_space_code_points : list N :=
  [0x9; 0xA; 0xB; 0xC; 0xD; 0x20; 0xA0; 0x1680;
   0x2000; 0x2001; 0x2002; 0x2003; 0x2004; 0x2005; 0x2006; 0x2007;
   0x2008; 0x2009; 0x200A; 0x2028; 0x2029; 0x202F; 0x205F; 0x3000;
   0xFEFF]%N.

Definition white_space : list (list ascii) := map utf8 white_space_code_points.

Fixpoint strip_prefix (p l : list ascii) : option (list ascii) :=
  match p, l with
  | [], _ => Some l
  | a :: p', b :: l' => if Ascii.eqb a b then strip_prefix p' l' else None
  | _ :: _, [] => None
  end.

Fixpoint strip_any (ps : list (list ascii)) (l : list ascii)
  : option (list ascii) :=
  match ps with
  | [] => None
  | p :: ps' =>
      match strip_prefix p l with
      | Some l' => Some l'
      | None => strip_any ps' l
      end
  end.

(** Remove leading occurrences of the patterns [ps]; every pattern is
    non-empty, so [length l] rounds are enough. *)
Fixpoint strip_leading (ps : list (list ascii)) (rounds : nat) (l : list ascii)
  : list ascii :=
  match rounds with
  | 0 => l
  | S rounds' =>
      match strip_any ps l with
      | Some l' => strip_leading ps rounds' l'
      | None => l
      end
  end.

Definition trimStart_bytes (l : list ascii) : list ascii :=
  strip_leading white_space (length l) l.

Definition trimEnd_bytes (l : list ascii) : list ascii :=
  rev (strip_leading (map (@rev ascii) white_space) (length l) (rev l)).

Definition trim (s : string) : string :=
  string_of_list_ascii (trimEnd_bytes (trimStart_bytes (list_ascii_of_string s))).

(** ** [URLSearchParams] *)

(** The ordered list of name/value pairs. *)
Definition URLSearchParams := list (string * string).

Definition append (name value : string) (params : URLSearchParams)
  : URLSearchParams :=
  params ++ [(name, value)].

Definition hex_digit (n : N) : ascii :=
  if (n <? 10)%N then byte (48 + n) else byte (55 + n).

(** Bytes left alone by the application/x-www-form-urlencoded serializer:
    ASCII alphanumerics and [*-._]. *)
Definition form_safe (n : N) : bool :=
  ((48 <=? n) && (n <=? 57) || (65 <=? n) && (n <=? 90)
   || (97 <=? n) && (n <=? 122)
   || (n =? 42) || (n =? 45) || (n =? 46) || (n =? 95))%N.

Definition encode_byte (a : ascii) : list ascii :=
  let n := N_of_ascii a in
  if (n =? 32)%N then [byte 43]
  else if form_safe n then [a]
  else [byte 37; hex_digit (n / 16); hex_digit (n mod 16)].

Definition encode (s : string) : string :=
  string_of_list_ascii (flat_map encode_byte (list_ascii_of_string s)).

Definition serialize_pair (p : string * string) : string :=
  encode p.1 +:+ "=" +:+ encode p.2.

(** [params.toString()] *)
Definition toString (params : URLSearchParams) : string :=
  String.concat "&" (map serialize_pair params).

(** The serialized pairs, joined by ampersands, as bytes. *)
Fixpoint join_segments (segs : list (list ascii)) : list ascii :=
  match segs with
  | [] => []
  | [seg] => seg
  | seg :: (_ :: _) as rest => seg ++ byte 38 :: join_segments rest
  end.

Definition pair_bytes (p : string * string) : list ascii :=
  flat_map encode_byte (list_ascii_of_string p.1)
  ++ byte 61 :: flat_map encode_byte (list_ascii_of_string p.2).

(** *** Parsing a query string back (what the receiving end does) *)



Definition hex_value (a : ascii) : option N :=
  let n := N_of_ascii a in
  if ((48 <=? n) && (n <=? 57))%N then Some (n - 48)%N
  else if ((65 <=? n) && (n <=? 70))%N then Some (n - 55)%N
  else if ((97 <=? n) && (n <=? 102))%N then Some (n - 87)%N
  else None.

Fixpoint decode_bytes (l : list ascii) : list ascii :=
  match l with
  | [] => []
  | a :: l' =>
      if (N_of_ascii a =? 43)%N then byte 32 :: decode_bytes l'
      else if (N_of_ascii a =? 37)%N then
        match l' with
        | h :: (lo :: l'') as rest =>
            match hex_value h, hex_value lo with
            | Some x, Some y => byte (16 * x + y) :: decode_bytes l''
            | _, _ => a :: decode_bytes rest
            end
        | _ => a :: decode_bytes l'
        end
      else a :: decode_bytes l'
  end.

(** Split at every occurrence of the separator byte. *)
Fixpoint split_on (sep : ascii) (l : list ascii) : list (list ascii) :=
  match l with
  | [] => [[]]
  | a :: l' =>
      if Ascii.eqb a sep then [] :: split_on sep l'
      else match split_on sep l' with
           | [] => [[a]]
           | w :: ws => (a :: w) :: ws
           end
  end.

(** Split at the first occurrence of the separator byte. *)
Fixpoint split_first (sep : ascii) (l : list ascii)
  : list ascii * list ascii :=
  match l with
  | [] => ([], [])
  | a :: l' =>
      if Ascii.eqb a sep then ([], l')
      else let '(k, v) := split_first sep l' in (a :: k, v)
  end.

(** The part of a URL after the first question mark. *)
Definition query_of (url : string) : string :=
  string_of_list_ascii (split_first (byte 63) (list_ascii_of_string url)).2.

Definition parse_pair (l : list ascii) : string * string :=
  let '(k, v) := split_first (byte 61) l in
  (string_of_list_ascii (decode_bytes k), string_of_list_ascii (decode_bytes v)).

(** [new URLSearchParams(query)]: empty segments are skipped. *)
Definition parse (query : string) : URLSearchParams :=
  map parse_pair
      (List.filter (fun seg => negb (Nat.eqb (length seg) 0))
                   (split_on (byte 38) (list_ascii_of_string query))).

End JS.

(* ===================================================================== *)
(** * Data exchanged with the backend                                     *)
(* ===================================================================== *)

Module Source.
Record t := {
  chunk_id : string;
  exact_quote : string;
  context : string;
  page_number : option Z;
  match_type : string;
  confidence_score : Q
}.
End Source.

Module AnswerResult.
Record t := {
  question_id : string;
  question_text : string;
  question_type : string;
  answer : string;
  reasoning_steps : list string;
  sources : list Source.t;
  confidence_score : Q;
  verification_status : string;
  processing_time : Q;
  model_used : string
}.
End AnswerResult.

Module QuestionBatch.
Record t := {
  batch_id : string;
  total_questions : Z;
  completed : Z;
  failed : Z;
  results : list AnswerResult.t;
  total_processing_time : Q;
  timestamp : string
}.
End QuestionBatch.

(** The body answered by [POST /documents/upload]. *)
Module UploadResult.
Record Metadata := { total_chunks : JS.Value }.
Record t := {
  document_id : string;
  metadata : option Metadata
}.
End UploadResult.

(** A browser [File]. *)
Module File.
Record t := {
  name : string;
  size : N;
  type : string
}.
End File.

(** An entry of the [uploadedFiles] list of the upload component. *)
Module UploadedFile.
Inductive Status := success | error.
Record t := {
  document_id : option string;
  name : string;
  status : Status;
  data : option UploadResult.t;
  chunk_count : JS.Value;
  error_detail : option string
}.
End UploadedFile.

(* ===================================================================== *)
(** * HTTP requests, observable events, and the effect monad              *)
(* ===================================================================== *)

Inductive Method := GET | POST | DELETE.

(** What [axios] is asked to send.  [url] is relative to the base URL of
    the client; [form_file] is the [file] field of the multipart body. *)
Record Request := {
  method : Method;
  url : string;
  form_file : option File.t;
  content_type : string
}.

(** A thrown error, seen through the two properties the handlers read:
    [error.response?.data?.detail] (set by a rejected request whose response
    carries a detail) and [error.message]. *)
Record Exception := {
  detail : option string;
  message : string
}.

Record Response (D : Type) := { data : D }.
Arguments data {D} _.

Inductive Event :=
| Http (req : Request)
| ToastError (msg : string)
| ToastSuccess (msg : string) (icon : option string)
| PreventDefault
| ConfirmDialog (msg : string)
| OnQuestionsProcessed (batch : QuestionBatch.t)
| OnUploadComplete (results : option (list UploadedFile.t)).

(** The HTTP requests of a trace, in order. *)
Definition requests_of (tr : list Event) : list Request :=
  omap (fun ev => match ev with Http req => Some req | _ => None end) tr.

(** Everything outside the front end: the backend behind each endpoint, the
    clock, the user answering a [confirm] dialog, and the number printer of
    the engine.  Each may depend on what has happened so far. *)
Record Env := {
  Number_toString : Q -> string;
  questions_single : list Event -> Request -> Exception + Response AnswerResult.t;
  questions_upload_json : list Event -> Request -> Exception + Response QuestionBatch.t;
  documents_upload : list Event -> Request -> Exception + Response UploadResult.t;
  documents_delete : list Event -> Request -> Exception + Response unit;
  Date_now : list Event -> string;
  Date_toISOString : list Event -> string;
  confirm : list Event -> string -> bool
}.

(** The calls into the parent component of a trace, in order. *)
Definition callbacks_of (tr : list Event) : list Event :=
  List.filter (fun ev => match ev with
                         | OnQuestionsProcessed _ | OnUploadComplete _ => true
                         | _ => false
                         end) tr.

(** The body answered by [GET /documents/stats]. *)
Module Stats.
Record t := {
  total_chunks : Z;
  total_documents : Z;
  collection_name : string
}.
End Stats.

(** One element of the body answered by [GET /documents/list]. *)
Module DocumentInfo.
Record t := {
  document_id : string;
  chunk_count : JS.Value
}.
End DocumentInfo.

(** The endpoints behind the read-only calls of the client. *)
Record Backend := {
  documents_list : list Event -> Request -> Exception + Response (list DocumentInfo.t);
  documents_stats : list Event -> Request -> Exception + Response Stats.t;
  health : list Event -> Request -> Exception + Response JS.Value
}.

Module Eff.

Inductive Outcome (A : Type) :=
| Return (a : A)
| Throw (e : Exception).
Arguments Return {A} a.
Arguments Throw {A} e.

(** A computation over a component state [S]: it reads the state and the
    trace so far, and yields an outcome, the new state and the new trace. *)
Definition t (S A : Type) : Type :=
  S -> list Event -> Outcome A * S * list Event.

Definition ret {S A} (a : A) : t S A := fun s tr => (Return a, s, tr).

Definition bind {S A B} (m : t S A) (f : A -> t S B) : t S B :=
  fun s tr =>
    match m s tr with
    | (Return a, s1, tr1) => f a s1 tr1
    | (Throw e, s1, tr1) => (Throw e, s1, tr1)
    end.

#[global] Instance eff_ret {S} : MRet (t S) := fun A => @ret S A.
#[global] Instance eff_bind {S} : MBind (t S) := fun A B f m => bind m f.

Definition emit {S} (ev : Event) : t S unit :=
  fun s tr => (Return tt, s, tr ++ [ev]).

Definition get {S} : t S S := fun s tr => (Return s, s, tr).

Definition modify {S} (f : S -> S) : t S unit :=
  fun s tr => (Return tt, f s, tr).

(** Ask the environment something that may depend on the history. *)
Definition ask {S A} (oracle : list Event -> A) : t S A :=
  fun s tr => (Return (oracle tr), s, tr).

(** [await api.post(...)] and friends: the request is recorded, and the
    promise either resolves to the response or rejects. *)
Definition request {S D} (endpoint : list Event -> Request -> Exception + Response D)
    (req : Request) : t S (Response D) :=
  fun s tr =>
    match endpoint tr req with
    | inr resp => (Return resp, s, tr ++ [Http req])
    | inl e => (Throw e, s, tr ++ [Http req])
    end.

(** [try { body } catch (error) { handler } finally { final }] *)
Definition try_catch_finally {S A} (body : t S A) (handler : Exception -> t S A)
    (final : t S unit) : t S A :=
  fun s tr =>
    let '(o1, s1, tr1) :=
      match body s tr with
      | (Return a, s1, tr1) => (Return a, s1, tr1)
      | (Throw e, s1, tr1) => handler e s1 tr1
      end in
    match final s1 tr1 with
    | (Return _, s2, tr2) => (o1, s2, tr2)
    | (Throw e, s2, tr2) => (Throw e, s2, tr2)
    end.

(** [try { body } catch (error) { handler }] *)
Definition try_catch {S A} (body : t S A) (handler : Exception -> t S A) : t S A :=
  try_catch_finally body handler (ret tt).

(** [for (const x of xs) { body x }] and [xs.forEach(body)] *)
Fixpoint for_of {S A} (xs : list A) (body : A -> t S unit) : t S unit :=
  match xs with
  | [] => ret tt
  | x :: xs' => bind (body x) (fun _ => for_of xs' body)
  end.

(** [throw e] *)
Definition throw {S A} (e : Exception) : t S A :=
  fun s tr => (Throw e, s, tr).

(** Run a computation of a component on the first half of a paired state. *)
Definition on_fst {S T A} (m : t S A) : t (S * T) A :=
  fun s tr => let '(o, s1, tr1) := m s.1 tr in (o, (s1, s.2), tr1).

(** Update the second half of a paired state. *)
Definition modify_snd {S T} (f : T -> T) : t (S * T) unit :=
  fun s tr => (Return tt, (s.1, f s.2), tr).

End Eff.

(* ===================================================================== *)
(** * services/api.js                                                     *)
(* ===================================================================== *)

Module Api.

(** The [options] argument; an absent property reads as [undefined]. *)
Record Options := {
  top_k : JS.Value;
  min_relevance_score : JS.Value;
  document_ids : option (list string)
}.

(** [options = {}] *)
Definition no_options : Options :=
  {| top_k := JS.Undefined; min_relevance_score := JS.Undefined;
     document_ids := None |}.

(** [{ ...options, top_k: v }] *)
Definition with_top_k (v : JS.Value) (options : Options) : Options :=
  {| top_k := v; min_relevance_score := min_relevance_score options;
     document_ids := document_ids options |}.

(** [{ ...options, min_relevance_score: v }] *)
Definition with_min_relevance_score (v : JS.Value) (options : Options) : Options :=
  {| top_k := top_k options; min_relevance_score := v;
     document_ids := document_ids options |}.

(** The parameters the backend reads from the URL of a request. *)
Definition sent_params (req : Request) : JS.URLSearchParams :=
  JS.parse (JS.query_of (url req)).

Section WithEnv.
Variable env : Env.
Context {S : Type}.

Definition upload (file : File.t) : Eff.t S UploadResult.t :=
  response ← Eff.request (documents_upload env)
    {| method := POST; url := "/documents/upload"; form_file := Some file;
       content_type := "multipart/form-data" |};
  mret (data response).

(** [delete], a reserved word on this side. *)
Definition delete_document (documentId : string) : Eff.t S unit :=
  response ← Eff.request (documents_delete env)
    {| method := DELETE; url := "/documents/" +:+ documentId; form_file := None;
       content_type := "application/json" |};
  mret (data response).

Definition uploadJSON (file : File.t) (options : Options)
  : Eff.t S QuestionBatch.t :=
  let params : JS.URLSearchParams := [] in
  let params :=
    if JS.ToBoolean (top_k options)
    then JS.append "top_k" (JS.ToString (Number_toString env) (top_k options)) params
    else params in
  let params :=
    if JS.ToBoolean (min_relevance_score options)
    then JS.append "min_relevance_score"
           (JS.ToString (Number_toString env) (min_relevance_score options)) params
    else params in
  response ← Eff.request (questions_upload_json env)
    {| method := POST; url := "/questions/upload-json?" +:+ JS.toString params;
       form_file := Some file; content_type := "multipart/form-data" |};
  mret (data response).

(** The parameters [askSingle] puts in the query string: the question, then
    [top_k] when it is truthy, then one [document_ids] per listed document. *)
Definition askSingle_params (question : string) (options : Options)
  : JS.URLSearchParams :=
  ("question", question)
  :: (if JS.ToBoolean (top_k options)
      then [("top_k", JS.ToString (Number_toString env) (top_k options))]
      else [])
  ++ match document_ids options with
     | Some ids => map (fun id => ("document_ids", id)) ids
     | None => []
     end.

Definition askSingle (question : string) (options : Options)
  : Eff.t S AnswerResult.t :=
  let params : JS.URLSearchParams := [("question", question)] in
  let params :=
    if JS.ToBoolean (top_k options)
    then JS.append "top_k" (JS.ToString (Number_toString env) (top_k options)) params
    else params in
  let params :=
    match document_ids options with
    | Some ids => foldl (fun ps id => JS.append "document_ids" id ps) params ids
    | None => params
    end in
  response ← Eff.request (questions_single env)
    {| method := POST; url := "/questions/single?" +:+ JS.toString params;
       form_file := None; content_type := "application/json" |};
  mret (data response).

End WithEnv.
(** The requests of the read-only calls. *)
Definition health_request : Request :=
  {| method := GET; url := "http://localhost:8000/health"; form_file := None;
     content_type := "application/json" |}.

Definition stats_request : Request :=
  {| method := GET; url := "/documents/stats"; form_file := None;
     content_type := "application/json" |}.

Definition list_request : Request :=
  {| method := GET; url := "/documents/list"; form_file := None;
     content_type := "application/json" |}.

Section WithBackend.
Variable backend : Backend.
Context {S : Type}.

(** [documentAPI.getStats] *)
Definition getStats : Eff.t S Stats.t :=
  response ← Eff.request (documents_stats backend)
    {| method := GET; url := "/documents/stats"; form_file := None;
       content_type := "application/json" |};
  mret (data response).

(** [healthCheck]: the request overrides the base URL of the client, so
    the URL is recorded in full; whatever goes wrong is replaced by a fresh
    [Error], which has no [response]. *)
Definition healthCheck : Eff.t S JS.Value :=
  Eff.try_catch
    (response ← Eff.request (health backend)
       {| method := GET; url := "http://localhost:8000/health"; form_file := None;
          content_type := "application/json" |};
     mret (data response))
    (fun error =>
       Eff.throw {| detail := None; message := "API is not reachable" |}).

(** [documentAPI.list] *)
Definition list : Eff.t S (list DocumentInfo.t) :=
  response ← Eff.request (documents_list backend)
    {| method := GET; url := "/documents/list"; form_file := None;
       content_type := "application/json" |};
  mret (data response).

End WithBackend.
End Api.

(* ===================================================================== *)
(** * components/QuestionUpload.jsx                                       *)
(* ===================================================================== *)

Module QuestionUpload.

Inductive Tab := manual | json.

Record State := {
  question : string;
  loading : bool;
  activeTab : Tab
}.

(** Whether the parent passed the [onQuestionsProcessed] callback. *)
Record Props := { onQuestionsProcessed : bool }.

Definition setQuestion (q : string) : Eff.t State unit :=
  Eff.modify (fun st => {| question := q; loading := loading st;
                           activeTab := activeTab st |}).

Definition setLoading (b : bool) : Eff.t State unit :=
  Eff.modify (fun st => {| question := question st; loading := b;
                           activeTab := activeTab st |}).

(** [error.response?.data?.detail || error.message] *)
Definition error_text (e : Exception) : string :=
  match detail e with
  | Some d => if String.eqb d "" then message e else d
  | None => message e
  end.

Section WithEnv.
Variable env : Env.
Variable props : Props.

Definition handleSubmit : Eff.t State unit :=
  st ← Eff.get;
  let question := question st in
  Eff.emit PreventDefault;;
  if String.eqb (JS.trim question) "" then
    Eff.emit (ToastError "Lütfen bir soru yazın!")
  else
    setLoading true;;
    Eff.try_catch_finally
      (result ← Api.askSingle env question Api.no_options;
       Eff.emit (ToastSuccess "✅ Soru cevaplandı!" (Some "🤖"));;
       (if onQuestionsProcessed props then
          now ← Eff.ask (Date_now env);
          iso ← Eff.ask (Date_toISOString env);
          Eff.emit (OnQuestionsProcessed
            {| QuestionBatch.batch_id := now;
               QuestionBatch.total_questions := 1;
               QuestionBatch.completed := 1;
               QuestionBatch.failed := 0;
               QuestionBatch.results := [result];
               QuestionBatch.total_processing_time :=
                 AnswerResult.processing_time result;
               QuestionBatch.timestamp := iso |})
        else mret tt);;
       setQuestion "")
      (fun error =>
         Eff.emit (ToastError ("❌ Hata oluştu: " +:+ error_text error)))
      (setLoading false).

End WithEnv.
(** The file input behind the JSON tab: the selected files and the value
    of the element.  Clearing the value of a file input empties the
    selection. *)
Record FileInput := {
  files : list File.t;
  value : string
}.

Definition clear_input (input : FileInput) : FileInput :=
  {| files := []; value := "" |}.

(** [name.endsWith(suffix)] *)
Definition endsWith (name suffix : string) : bool :=
  match JS.strip_prefix (rev (list_ascii_of_string suffix))
                        (rev (list_ascii_of_string name)) with
  | Some _ => true
  | None => false
  end.

(** The request [handleSubmit] has [askSingle] send for a question. *)
Definition single_request (question : string) : Request :=
  {| method := POST;
     url := "/questions/single?" +:+ JS.toString [("question", question)];
     form_file := None; content_type := "application/json" |}.

(** The request [handleJSONUpload] has [uploadJSON] send for a file. *)
Definition json_request (file : File.t) : Request :=
  {| method := POST; url := "/questions/upload-json?" +:+ JS.toString [];
     form_file := Some file; content_type := "multipart/form-data" |}.

Section WithInput.
Variable env : Env.
Variable props : Props.

(** The change handler of the file input; [e.target] is the second half of
    the state. *)
Definition handleJSONUpload : Eff.t (State * FileInput) unit :=
  s ← Eff.get;
  match files s.2 with
  | [] => mret tt
  | file :: _ =>
      if negb (endsWith (File.name file) ".json") then
        Eff.emit (ToastError "Sadece .json dosyaları destekleniyor!")
      else
        Eff.on_fst (setLoading true);;
        Eff.try_catch_finally
          (result ← Api.uploadJSON env file Api.no_options;
           Eff.emit (ToastSuccess
             ("✅ " +:+ JS.ToString (Number_toString env)
                          (JS.Number (inject_Z (QuestionBatch.completed result)))
              +:+ " soru cevaplandı!") None);;
           if onQuestionsProcessed props then Eff.emit (OnQuestionsProcessed result)
           else mret tt)
          (fun error =>
             Eff.emit (ToastError ("❌ JSON yükleme hatası: " +:+ error_text error)))
          (Eff.on_fst (setLoading false);;
           Eff.modify_snd clear_input)
  end.

End WithInput.
End QuestionUpload.

(* ===================================================================== *)
(** * react-dropzone, as configured by the upload component               *)
(* ===================================================================== *)

(** The library is not part of the repository; this is the part of its
    documented behaviour that the component relies on: each dropped file is
    checked against [accept] and against [maxSize], and is rejected with the
    list of the checks it failed, the type check first. *)
Module Dropzone.

Record FileError := { code : string }.

Record FileRejection := {
  file : File.t;
  errors : list FileError
}.

(** [accept: { mime: [extensions] }] *)
Definition accept : list (string * list string) :=
  [("application/pdf", [".pdf"]);
   ("application/vnd.openxmlformats-officedocument.wordprocessingml.document",
    [".docx"]);
   ("text/plain", [".txt"])].

(** [maxSize: 10 * 1024 * 1024] *)
Definition maxSize : N := 10 * 1024 * 1024.

Definition lower_byte (a : ascii) : ascii :=
  let n := N_of_ascii a in
  if ((65 <=? n) && (n <=? 90))%N then JS.byte (n + 32) else a.

Definition toLowerCase (s : string) : list ascii :=
  map lower_byte (list_ascii_of_string s).

Definition endsWith (l suffix : list ascii) : bool :=
  match JS.strip_prefix (rev suffix) (rev l) with
  | Some _ => true
  | None => false
  end.

(** One entry of the accept list against a file: an extension is compared
    with the end of the file name, a MIME type with the file type. *)
Definition accepts_one (f : File.t) (valid : string) : bool :=
  let validType := toLowerCase valid in
  match validType with
  | a :: _ =>
      if Ascii.eqb a (JS.byte 46)
      then endsWith (toLowerCase (File.name f)) validType
      else bool_decide (toLowerCase (File.type f) = validType)
  | [] => bool_decide (toLowerCase (File.type f) = validType)
  end.

Definition fileAccepted (f : File.t) : bool :=
  String.eqb (File.type f) "application/x-moz-file"
  || existsb (accepts_one f) (flat_map (fun p => p.1 :: p.2) accept).

Definition fileMatchSize (f : File.t) : bool :=
  negb (maxSize <? File.size f)%N.

Definition file_errors (f : File.t) : list FileError :=
  (if fileAccepted f then [] else [{| code := "file-invalid-type" |}])
  ++ (if fileMatchSize f then [] else [{| code := "file-too-large" |}]).

(** The accepted files and the rejections, each in drop order
    ([multiple: true], no [maxFiles]). *)
Definition classify (files : list File.t) : list File.t * list FileRejection :=
  (List.filter (fun f => fileAccepted f && fileMatchSize f) files,
   map (fun f => {| file := f; errors := file_errors f |})
       (List.filter (fun f => negb (fileAccepted f && fileMatchSize f)) files)).

End Dropzone.

(* ===================================================================== *)
(** * components/DocumentUpload.jsx                                       *)
(* ===================================================================== *)

Module DocumentUpload.

Record State := {
  uploading : bool;
  uploadedFiles : list UploadedFile.t;
  dragActive : bool
}.

(** Whether the parent passed the [onUploadComplete] callback. *)
Record Props := { onUploadComplete : bool }.

Definition setUploading (b : bool) : Eff.t State unit :=
  Eff.modify (fun st => {| uploading := b; uploadedFiles := uploadedFiles st;
                           dragActive := dragActive st |}).

(** [setUploadedFiles(prev => f(prev))] *)
Definition setUploadedFiles (f : list UploadedFile.t -> list UploadedFile.t)
  : Eff.t State unit :=
  Eff.modify (fun st => {| uploading := uploading st;
                           uploadedFiles := f (uploadedFiles st);
                           dragActive := dragActive st |}).

Definition quote : string := String (JS.byte 34) "".

(** [errors[0].code] of an empty list is a [TypeError]. *)
Definition no_first_error : Exception :=
  {| detail := None;
     message := "Cannot read properties of undefined (reading 'code')" |}.

(** The body of [rejectedFiles.forEach(...)]. *)
Definition report_rejection (r : Dropzone.FileRejection) : Eff.t State unit :=
  match Dropzone.errors r with
  | [] => fun s tr => (Eff.Throw no_first_error, s, tr)
  | error :: _ =>
      if String.eqb (Dropzone.code error) "file-too-large" then
        Eff.emit (ToastError
          (File.name (Dropzone.file r) +:+ ": Dosya çok büyük (max 10MB)"))
      else if String.eqb (Dropzone.code error) "file-invalid-type" then
        Eff.emit (ToastError
          (File.name (Dropzone.file r) +:+ ": Desteklenmeyen format"))
      else mret tt
  end.

(** What a rejected file makes [report_rejection] show. *)
Definition rejection_toast (f : File.t) : Event :=
  ToastError (File.name f +:+
    (if Dropzone.fileAccepted f then ": Dosya çok büyük (max 10MB)"
     else ": Desteklenmeyen format")).

(** The request [documentAPI.upload] sends for a file. *)
Definition upload_request (f : File.t) : Request :=
  {| method := POST; url := "/documents/upload"; form_file := Some f;
     content_type := "multipart/form-data" |}.

(** [result.metadata?.total_chunks || 0] *)
Definition chunk_count_of (result : UploadResult.t) : JS.Value :=
  match UploadResult.metadata result with
  | Some m =>
      if JS.ToBoolean (UploadResult.total_chunks m)
      then UploadResult.total_chunks m else JS.Number 0
  | None => JS.Number 0
  end.

(** [error.response?.data?.detail || 'Yükleme hatası'] *)
Definition upload_error_text (e : Exception) : string :=
  match detail e with
  | Some d => if String.eqb d "" then "Yükleme hatası" else d
  | None => "Yükleme hatası"
  end.

Section WithEnv.
Variable env : Env.
Variable props : Props.

(** One round of [for (const file of acceptedFiles)]; the entry it pushes
    onto [results] is returned. *)
Definition upload_one (file : File.t) : Eff.t State UploadedFile.t :=
  Eff.try_catch
    (result ← Api.upload env file;
     Eff.emit (ToastSuccess ("✅ " +:+ File.name file +:+ " yüklendi!") (Some "📄"));;
     mret {| UploadedFile.document_id := Some (UploadResult.document_id result);
             UploadedFile.name := File.name file;
             UploadedFile.status := UploadedFile.success;
             UploadedFile.data := Some result;
             UploadedFile.chunk_count := chunk_count_of result;
             UploadedFile.error_detail := None |})
    (fun error =>
       Eff.emit (ToastError ("❌ " +:+ File.name file +:+ " yüklenemedi"));;
       mret {| UploadedFile.document_id := None;
               UploadedFile.name := File.name file;
               UploadedFile.status := UploadedFile.error;
               UploadedFile.data := None;
               UploadedFile.chunk_count := JS.Undefined;
               UploadedFile.error_detail := Some (upload_error_text error) |}).

Fixpoint upload_all (files : list File.t) : Eff.t State (list UploadedFile.t) :=
  match files with
  | [] => mret []
  | file :: rest =>
      entry ← upload_one file;
      results ← upload_all rest;
      mret (entry :: results)
  end.

Definition onDrop (acceptedFiles : list File.t)
    (rejectedFiles : list Dropzone.FileRejection) : Eff.t State unit :=
  Eff.for_of rejectedFiles report_rejection;;
  if Nat.eqb (length acceptedFiles) 0 then mret tt
  else
    setUploading true;;
    results ← upload_all acceptedFiles;
    setUploadedFiles (fun prev => results ++ prev);;
    setUploading false;;
    if onUploadComplete props then Eff.emit (OnUploadComplete (Some results))
    else mret tt.

(** A drop on the zone: ignored while [disabled: uploading] holds,
    otherwise the files are sorted and handed to [onDrop]. *)
Definition drop (files : list File.t) : Eff.t State unit :=
  st ← Eff.get;
  if uploading st then mret tt
  else
    let '(acceptedFiles, fileRejections) := Dropzone.classify files in
    onDrop acceptedFiles fileRejections.

Definition handleDelete (documentId : string) (fileName : string)
  : Eff.t State unit :=
  let question :=
    quote +:+ fileName +:+ quote +:+ " belgesini silmek istediğinize emin misiniz?" in
  Eff.emit (ConfirmDialog question);;
  confirmed ← Eff.ask (fun tr => confirm env tr question);
  if negb confirmed then mret tt
  else
    Eff.try_catch
      (Api.delete_document env documentId;;
       setUploadedFiles
         (filter (fun f => UploadedFile.document_id f ≠ Some documentId));;
       Eff.emit (ToastSuccess "🗑️ Belge silindi" None);;
       if onUploadComplete props then Eff.emit (OnUploadComplete None)
       else mret tt)
      (fun error => Eff.emit (ToastError "❌ Silme başarısız")).

End WithEnv.
(** The question [handleDelete] asks before deleting. *)
Definition delete_dialog (fileName : string) : string :=
  quote +:+ fileName +:+ quote +:+ " belgesini silmek istediğinize emin misiniz?".

(** The request [documentAPI.delete] sends for a document. *)
Definition delete_request (documentId : string) : Request :=
  {| method := DELETE; url := "/documents/" +:+ documentId; form_file := None;
     content_type := "application/json" |}.

(** The entry [onDrop] pushes onto [results] for a file, given how its
    upload went: the [try] branch for an answer, the [catch] branch for an
    error. *)
Definition entry_of (file : File.t) (answer : Exception + Response UploadResult.t)
  : UploadedFile.t :=
  match answer with
  | inr resp =>
      {| UploadedFile.document_id := Some (UploadResult.document_id (data resp));
         UploadedFile.name := File.name file;
         UploadedFile.status := UploadedFile.success;
         UploadedFile.data := Some (data resp);
         UploadedFile.chunk_count := chunk_count_of (data resp);
         UploadedFile.error_detail := None |}
  | inl e =>
      {| UploadedFile.document_id := None;
         UploadedFile.name := File.name file;
         UploadedFile.status := UploadedFile.error;
         UploadedFile.data := None;
         UploadedFile.chunk_count := JS.Undefined;
         UploadedFile.error_detail := Some (upload_error_text e) |}
  end.

(** The files of a drop that pass the type and the size check. *)
Definition accepted_of (files : list File.t) : list File.t :=
  (Dropzone.classify files).1.

(** The files of a drop that fail the type or the size check. *)
Definition rejected_of (files : list File.t) : list File.t :=
  map Dropzone.file (Dropzone.classify files).2.

(** An entry has a document id exactly when its upload succeeded, and an
    error text exactly when it failed. *)
Definition well_formed (entry : UploadedFile.t) : Prop :=
  match UploadedFile.status entry with
  | UploadedFile.success =>
      is_Some (UploadedFile.document_id entry) ∧ UploadedFile.error_detail entry = None
  | UploadedFile.error =>
      UploadedFile.document_id entry = None ∧ is_Some (UploadedFile.error_detail entry)
  end.

Section WithBackend.
Variable env : Env.
Variable backend : Backend.

(** The entry shown for a document of the backend's list. *)
Definition listed_entry (doc : DocumentInfo.t) : UploadedFile.t :=
  {| UploadedFile.document_id := Some (DocumentInfo.document_id doc);
     UploadedFile.name :=
       "Belge (" +:+ JS.ToString (Number_toString env) (DocumentInfo.chunk_count doc)
       +:+ " chunk)";
     UploadedFile.status := UploadedFile.success;
     UploadedFile.data := None;
     UploadedFile.chunk_count := DocumentInfo.chunk_count doc;
     UploadedFile.error_detail := None |}.

(** Run on mount.  The [catch] branch only writes to the console, which
    is not part of the trace. *)
Definition loadDocuments : Eff.t State unit :=
  Eff.try_catch
    (docs ← Api.list backend;
     setUploadedFiles (fun _ => map listed_entry docs))
    (fun error => mret tt).

End WithBackend.
End DocumentUpload.

(* ===================================================================== *)
(** * App.jsx                                                             *)
(* ===================================================================== *)

Module App.

Inductive ApiStatus := checking | connected | disconnected.

Record State := {
  qaResult : option QuestionBatch.t;
  stats : option Stats.t;
  apiStatus : ApiStatus
}.

Definition setQaResult (r : option QuestionBatch.t) : Eff.t State unit :=
  Eff.modify (fun st => {| qaResult := r; stats := stats st;
                           apiStatus := apiStatus st |}).

Definition setStats (d : option Stats.t) : Eff.t State unit :=
  Eff.modify (fun st => {| qaResult := qaResult st; stats := d;
                           apiStatus := apiStatus st |}).

Definition setApiStatus (a : ApiStatus) : Eff.t State unit :=
  Eff.modify (fun st => {| qaResult := qaResult st; stats := stats st;
                           apiStatus := a |}).

Section WithBackend.
Variable backend : Backend.

Definition checkAPIHealth : Eff.t State unit :=
  Eff.try_catch
    (Api.healthCheck backend;;
     setApiStatus connected)
    (fun error => setApiStatus disconnected).

(** The [catch] branch only writes to the console, which is not part of
    the trace. *)
Definition loadStats : Eff.t State unit :=
  Eff.try_catch
    (data ← Api.getStats backend;
     setStats (Some data))
    (fun error => mret tt).

(** The callback handed to the upload component; its argument is not
    looked at. *)
Definition handleUploadComplete (results : option (list UploadedFile.t))
  : Eff.t State unit :=
  loadStats.

(** The callback handed to the question component. *)
Definition handleQuestionsProcessed (result : QuestionBatch.t) : Eff.t State unit :=
  setQaResult (Some result).

(** What the parent does with an event raised by one of the two
    components: the callbacks run, everything else is not its business. *)
Definition on_child_event (ev : Event) : Eff.t State unit :=
  match ev with
  | OnQuestionsProcessed batch => handleQuestionsProcessed batch
  | OnUploadComplete results => handleUploadComplete results
  | _ => mret tt
  end.

(** The parent handling, in order, the events a component has raised. *)
Definition deliver (evs : list Event) : Eff.t State unit :=
  Eff.for_of evs on_child_event.

End WithBackend.
End App.

(* ===================================================================== *)
(** * Property lookup on object literals                                  *)
(* ===================================================================== *)

Module JSObject.

(** The properties every object literal inherits from [Object.prototype]. *)
Definition Object_prototype : list string :=
  ["constructor"; "__defineGetter__"; "__defineSetter__"; "hasOwnProperty";
   "__lookupGetter__"; "__lookupSetter__"; "isPrototypeOf";
   "propertyIsEnumerable"; "toString"; "valueOf"; "__proto__";
   "toLocaleString"].

(** The value of [obj[key]] for an object literal with own properties [obj]:
    an own property, else a member of [Object.prototype] (a built-in
    function, or the prototype object itself for [__proto__]), else
    [undefined]. *)
Inductive Property (A : Type) :=
| Own (a : A)
| Builtin (key : string)
| Undefined.
Arguments Own {A} a.
Arguments Builtin {A} key.
Arguments Undefined {A}.

Definition get {A} (obj : gmap string A) (key : string) : Property A :=
  match obj !! key with
  | Some a => Own a
  | None =>
      if bool_decide (key ∈ Object_prototype) then Builtin key else Undefined
  end.

(** [x || y]: objects and functions are truthy, [undefined] is not. *)
Definition or_else {A} (x y : Property A) : Property A :=
  match x with
  | Undefined => y
  | _ => x
  end.

End JSObject.

(* ===================================================================== *)
(** * components/ResultsView.jsx                                          *)
(* ===================================================================== *)

Module ResultsView.

Inductive LucideIcon := ShieldCheck | ShieldAlert | ShieldQuestion.

(** What a badge renders to: the class of the outer element, the icon (if
    the badge has one) with its class, and the text child. *)
Record Badge := {
  className : string;
  badge_icon : option (LucideIcon * string);
  label : string
}.

(** React refuses an element whose type is [undefined]. *)
Inductive RenderError := InvalidElementType.

Module Verification.
Record Config := {
  icon : LucideIcon;
  text : string;
  bgColor : string;
  textColor : string;
  borderColor : string
}.

Definition verified : Config :=
  {| icon := ShieldCheck; text := "Doğrulanmış"; bgColor := "bg-green-100";
     textColor := "text-green-700"; borderColor := "border-green-300" |}.
Definition partial : Config :=
  {| icon := ShieldAlert; text := "Kısmen Doğrulanmış"; bgColor := "bg-amber-100";
     textColor := "text-amber-700"; borderColor := "border-amber-300" |}.
Definition unverified : Config :=
  {| icon := ShieldQuestion; text := "Doğrulanmamış"; bgColor := "bg-slate-100";
     textColor := "text-slate-700"; borderColor := "border-slate-300" |}.

Definition configs : gmap string Config :=
  <["verified" := verified]> (<["partial" := partial]>
  (<["unverified" := unverified]> ∅)).
End Verification.

Module MatchType.
Record Config := {
  text : string;
  bgColor : string;
  textColor : string
}.

Definition exact : Config :=
  {| text := "Tam Eşleşme"; bgColor := "bg-green-100"; textColor := "text-green-700" |}.
Definition paraphrase : Config :=
  {| text := "Parafraz"; bgColor := "bg-blue-100"; textColor := "text-blue-700" |}.
Definition inference : Config :=
  {| text := "Çıkarım"; bgColor := "bg-purple-100"; textColor := "text-purple-700" |}.

Definition configs : gmap string Config :=
  <["exact" := exact]> (<["paraphrase" := paraphrase]>
  (<["inference" := inference]> ∅)).
End MatchType.

(** [config.p] inside a template literal or as a child: an own config gives
    its field; a built-in has no such property, which reads [undefined]. *)
Definition interpolate {A} (config : JSObject.Property A) (p : A -> string)
  : string :=
  match config with
  | JSObject.Own c => p c
  | _ => "undefined"
  end.

Definition VerificationBadge (status : string) : RenderError + Badge :=
  let config :=
    JSObject.or_else (JSObject.get Verification.configs status)
                     (JSObject.get Verification.configs "unverified") in
  match config with
  | JSObject.Own c =>
      inr {| className :=
               "flex items-center space-x-1.5 px-3 py-1.5 rounded-lg border "
               +:+ Verification.bgColor c +:+ " " +:+ Verification.borderColor c;
             badge_icon :=
               Some (Verification.icon c, "w-4 h-4 " +:+ Verification.textColor c);
             label := Verification.text c |}
  | _ => inl InvalidElementType
  end.

Definition MatchTypeBadge (matchType : string) : RenderError + Badge :=
  let config :=
    JSObject.or_else (JSObject.get MatchType.configs matchType)
                     (JSObject.get MatchType.configs "inference") in
  inr {| className :=
           "px-2 py-1 rounded text-xs font-medium "
           +:+ interpolate config MatchType.bgColor +:+ " "
           +:+ interpolate config MatchType.textColor;
         badge_icon := None;
         label := match config with
                  | JSObject.Own c => MatchType.text c
                  | _ => ""
                  end |}.

(** [labels] of [getQuestionTypeLabel] *)
Definition labels : gmap string string :=
  <["open_ended" := "📝 Açık Uçlu"]> (<["multiple_choice" := "✅ Çoktan Seçmeli"]>
  (<["true_false" := "⚖️ Doğru/Yanlış"]> (<["short_answer" := "💬 Kısa Cevap"]> ∅))).

(** [labels[type] || '❓ Soru']; every label is a non-empty string, hence
    truthy. *)
Definition getQuestionTypeLabel (type : string) : JSObject.Property string :=
  JSObject.or_else (JSObject.get labels type) (JSObject.Own "❓ Soru").

End ResultsView.

(* ===================================================================== *)
(** * The chunker                                                         *)
(* ===================================================================== *)

Module Chunker.

(** Modelled from the spec: the [ConfigError] of section 4.1. *)
Inductive ConfigError := OverlapNotBelowSize.

Section Chunk.
Context {Char : Type}.

(** Modelled from the spec: the boundary search of the chunker (section 3,
    the Chunk invariant; the Python source is not in the tree): given the
    text, the start of a chunk and the furthest admissible end, the
    preferred end of the chunk (the end of a sentence, failing that a word
    boundary, failing that the furthest end).  It is left open here. *)
Variable boundary : list Char -> nat -> nat -> nat.

(** Modelled from the spec: the chunk draft of section 4.1. *)
Record Draft := {
  text : list Char;
  char_offset_range : nat * nat;
  page_number : option nat
}.

(** Modelled from the spec: the characters of an offset range. *)
Definition slice (t : list Char) (from to : nat) : list Char :=
  take (to - from) (drop from t).

(** Modelled from the spec: the page containing [offset] (section 4.1):
    the number of pages that begin at or before it; none when no page has
    begun yet. *)
Definition page_of (page_boundaries : list nat) (offset : nat) : option nat :=
  let n := length (List.filter (fun b => b <=? offset) page_boundaries) in
  if n =? 0 then None else Some n.

(** Modelled from the spec: the draft for an offset range (section 4.1). *)
Definition draft (t : list Char) (page_boundaries : list nat) (from to : nat)
  : Draft :=
  {| text := slice t from to;
     char_offset_range := (from, to);
     page_number := page_of page_boundaries from |}.

(** Modelled from the spec: the end of a chunk that starts at [start] and
    is not the last one (sections 3 and 4.1): the preferred boundary, kept
    inside the window that leaves the chunk longer than the overlap and no
    longer than [chunk_size]. *)
Definition cut (t : list Char) (chunk_size chunk_overlap start : nat) : nat :=
  (start + chunk_overlap + 1) `max`
    ((start + chunk_size) `min` boundary t start (start + chunk_size)).

(** Modelled from the spec: the chunking loop of the document processor
    (section 4.1; the Python source is not in the tree).  Chunks are cut in
    document order; a chunk that reaches the end of the text is the last
    one and may be shorter; the next chunk starts [chunk_overlap]
    characters before the end of the previous one. *)
Equations? chunks_from (t : list Char) (page_boundaries : list nat)
    (chunk_size chunk_overlap start : nat) : list Draft
    by wf (length t - start) lt :=
chunks_from t page_boundaries chunk_size chunk_overlap start
    with le_lt_dec (length t) (start + chunk_size) => {
  | left _ => [draft t page_boundaries start (length t)]
  | right _ =>
      draft t page_boundaries start (cut t chunk_size chunk_overlap start)
      :: chunks_from t page_boundaries chunk_size chunk_overlap
           (cut t chunk_size chunk_overlap start - chunk_overlap) }.
Proof. unfold cut. lia. Qed.

(** Modelled from the spec: [chunk(text, page_boundaries, chunk_size,
    chunk_overlap)] of section 4.1 (the Python source is not in the tree):
    [chunk_overlap < chunk_size] is required, and the empty text yields no
    chunk. *)
Definition chunk (t : list Char) (page_boundaries : list nat)
    (chunk_size chunk_overlap : nat) : ConfigError + list Draft :=
  if chunk_size <=? chunk_overlap then inl OverlapNotBelowSize
  else if length t =? 0 then inr []
  else inr (chunks_from t page_boundaries chunk_size chunk_overlap 0).

(** Modelled from the spec: the reassembly of section 8: concatenate the
    chunk texts, removing from every chunk but the first the
    [chunk_overlap] characters it shares with its predecessor. *)
Definition reassemble (chunk_overlap : nat) (texts : list (list Char))
  : list Char :=
  match texts with
  | [] => []
  | first :: rest => first ++ concat (map (drop chunk_overlap) rest)
  end.

End Chunk.

(** Modelled from the spec: the plain boundary policy, which always cuts at
    the furthest admissible end (the one the scenario of section 8 follows). *)
Definition hard_cut {Char : Type} (t : list Char) (start limit : nat) : nat :=
  limit.

End Chunker.

(* ===================================================================== *)
(** * The embedding index                                                 *)
(* ===================================================================== *)

Module EmbeddingIndex.

(** Modelled from the spec: what the index keeps of a chunk besides its
    embedding (section 3). *)
Record Metadata := {
  document_id : string;
  text : string;
  char_offset_range : nat * nat;
  page_number : option nat
}.

Section Index.
Context {Embedding : Type}.

(** Modelled from the spec: the cosine similarity of section 4.2, as
    computed by the storage engine; it is left open here. *)
Variable similarity : Embedding -> Embedding -> Q.

(** Modelled from the spec: an entry of the index (section 4.2). *)
Record Entry := {
  chunk_id : string;
  embedding : Embedding;
  metadata : Metadata
}.

(** Modelled from the spec: the index of section 4.2, as the stored
    entries in insertion order. *)
Definition t := list Entry.

(** Modelled from the spec: [upsert] of section 4.2 (the vector store
    adapter is not in the tree): an entry with the same [chunk_id] is
    replaced where it stands, a new one is added at the end. *)
Definition upsert (id : string) (e : Embedding) (m : Metadata) (idx : t) : t :=
  let entry := {| chunk_id := id; embedding := e; metadata := m |} in
  if existsb (fun x => String.eqb (chunk_id x) id) idx
  then map (fun x => if String.eqb (chunk_id x) id then entry else x) idx
  else idx ++ [entry].

(** Modelled from the spec: [delete(document_id)] of section 4.2 removes
    all chunks of the document. *)
Definition delete (doc : string) (idx : t) : t :=
  List.filter (fun x => negb (String.eqb (document_id (metadata x)) doc)) idx.

(** Modelled from the spec: [filter] of section 4.2 restricts the search to
    a set of documents; absent, the whole corpus is searched. *)
Definition in_scope (filter : option (list string)) (x : Entry) : bool :=
  match filter with
  | None => true
  | Some docs => existsb (String.eqb (document_id (metadata x))) docs
  end.

(** Modelled from the spec: the ranking of section 4.2.  Insert a hit in a
    ranking that is descending by score; among equal scores the hit goes
    first. *)
Fixpoint insert_ranked (h : Entry * Q) (ranking : list (Entry * Q))
  : list (Entry * Q) :=
  match ranking with
  | [] => [h]
  | h' :: rest =>
      if Qle_bool h'.2 h.2 then h :: ranking
      else h' :: insert_ranked h rest
  end.

(** Modelled from the spec: the ranking of section 4.2, descending by
    score, ties in insertion order. *)
Definition rank (hits : list (Entry * Q)) : list (Entry * Q) :=
  foldr insert_ranked [] hits.

(** Modelled from the spec: the search behind [query] (section 4.2): the
    entries in scope, scored against the query, ranked, cut to [k]. *)
Definition search (idx : t) (q : Embedding) (k : nat)
    (filter : option (list string)) : list (Entry * Q) :=
  take k (rank (map (fun x => (x, similarity q (embedding x)))
                    (List.filter (in_scope filter) idx))).

(** Modelled from the spec: [query(embedding, k, filter?)] of section 4.2:
    the [k] best entries in scope as pairs of chunk id and score. *)
Definition query (idx : t) (q : Embedding) (k : nat)
    (filter : option (list string)) : list (string * Q) :=
  map (fun h => (chunk_id h.1, h.2)) (search idx q k filter).

(** Modelled from the spec: the three operations of section 4.2, and a run
    of them from a state: the final state and the rankings answered to the
    queries, in order. *)
Inductive Op :=
| Upsert (id : string) (e : Embedding) (m : Metadata)
| Delete (doc : string)
| Query (q : Embedding) (k : nat) (filter : option (list string)).

(** Modelled from the spec: one operation applied to the index. *)
Definition step (idx : t) (op : Op) : t * option (list (string * Q)) :=
  match op with
  | Upsert id e m => (upsert id e m idx, None)
  | Delete doc => (delete doc idx, None)
  | Query q k filter => (idx, Some (query idx q k filter))
  end.

(** Modelled from the spec: a sequence of operations applied in order. *)
Fixpoint run (idx : t) (ops : list Op) : t * list (list (string * Q)) :=
  match ops with
  | [] => (idx, [])
  | op :: ops' =>
      let '(idx', answer) := step idx op in
      let '(final, answers) := run idx' ops' in
      (final, match answer with
              | Some ranking => ranking :: answers
              | None => answers
              end)
  end.

(** No entry is stored under the chunk id [id]. *)
Definition absent (id : string) (idx : t) : Prop :=
  ∀ x, x ∈ idx → chunk_id x ≠ id.

(** An operation that stores a chunk under the id [id]. *)
Definition stores (id : string) (op : Op) : bool :=
  match op with
  | Upsert id' _ _ => String.eqb id' id
  | _ => false
  end.

End Index.
End EmbeddingIndex.

(* ===================================================================== *)
(** * The retriever                                                       *)
(* ===================================================================== *)

Module Retriever.

(** Modelled from the spec: the [RetrievalError] of section 7. *)
Inductive RetrievalError := IndexUnavailable.

Section Retrieve.
Context {Embedding : Type}.
Variable similarity : Embedding -> Embedding -> Q.

(** Modelled from the spec: the embedding capability [embed(text)] of
    section 1; it is left open here. *)
Variable embed : string -> Embedding.

(** Modelled from the spec: [retrieve(question_text, top_k,
    min_relevance_score, document_ids?)] of section 4.3 (the retriever is not
    in the tree): the question is embedded once, the index is queried for
    the [top_k] best entries in scope, and the entries scoring below
    [min_relevance_score] are discarded.  An index that cannot be reached is
    a [RetrievalError]. *)
Definition retrieve (index : option (@EmbeddingIndex.t Embedding))
    (question_text : string) (top_k : nat) (min_relevance_score : Q)
    (document_ids : option (list string))
  : RetrievalError + list (@EmbeddingIndex.Entry Embedding) :=
  match index with
  | None => inl IndexUnavailable
  | Some idx =>
      let q := embed question_text in
      inr (map fst
             (List.filter (fun h => Qle_bool min_relevance_score h.2)
                (EmbeddingIndex.search similarity idx q top_k document_ids)))
  end.

End Retrieve.
End Retriever.

(* ===================================================================== *)
(** * A stand-in environment, for running the handlers                    *)
(* ===================================================================== *)

Module Sample.

Definition answer : AnswerResult.t :=
  {| AnswerResult.question_id := "q1";
     AnswerResult.question_text := "Ana konular nelerdir?";
     AnswerResult.question_type := "open_ended";
     AnswerResult.answer := "Belge erişim ve doğrulama hattını anlatıyor.";
     AnswerResult.reasoning_steps := [];
     AnswerResult.sources := [];
     AnswerResult.confidence_score := 17 # 20;
     AnswerResult.verification_status := "verified";
     AnswerResult.processing_time := 117 # 50;
     AnswerResult.model_used := "gemini-2.0-flash-exp" |}.

Definition batch : QuestionBatch.t :=
  {| QuestionBatch.batch_id := "b1";
     QuestionBatch.total_questions := 1;
     QuestionBatch.completed := 1;
     QuestionBatch.failed := 0;
     QuestionBatch.results := [answer];
     QuestionBatch.total_processing_time := 117 # 50;
     QuestionBatch.timestamp := "2025-01-01T00:00:00.000Z" |}.

(** Prints the integer part; enough for integral option values. *)
Definition print_integer (q : Q) : string :=
  pretty (Qnum q / Z.pos (Qden q))%Z.

(** A backend that answers every request, naming a document after the
    uploaded file. *)
Definition env : Env :=
  {| Number_toString := print_integer;
     questions_single := fun _ _ => inr {| data := answer |};
     questions_upload_json := fun _ _ => inr {| data := batch |};
     documents_upload := fun _ req =>
       inr {| data :=
                {| UploadResult.document_id :=
                     match form_file req with
                     | Some f => "doc-" +:+ File.name f
                     | None => "doc"
                     end;
                   UploadResult.metadata :=
                     Some {| UploadResult.total_chunks := JS.Number 4 |} |} |};
     documents_delete := fun _ _ => inr {| data := tt |};
     Date_now := fun _ => "1735689600000";
     Date_toISOString := fun _ => "2025-01-01T00:00:00.000Z";
     confirm := fun _ _ => true |}.

Definition report : File.t :=
  {| File.name := "report.pdf"; File.size := 2048; File.type := "application/pdf" |}.

(** Twenty mebibytes, of a type the zone accepts. *)
Definition scan : File.t :=
  {| File.name := "scan.pdf"; File.size := 20 * 1024 * 1024;
     File.type := "application/pdf" |}.

(** Twenty mebibytes, of a type the zone does not accept. *)
Definition archive : File.t :=
  {| File.name := "archive.zip"; File.size := 20 * 1024 * 1024;
     File.type := "application/zip" |}.

(** An upload component at rest. *)
Definition idle : DocumentUpload.State :=
  {| DocumentUpload.uploading := false; DocumentUpload.uploadedFiles := [];
     DocumentUpload.dragActive := false |}.

Definition listed (id : string) : UploadedFile.t :=
  {| UploadedFile.document_id := Some id;
     UploadedFile.name := "Belge (4 chunk)";
     UploadedFile.status := UploadedFile.success;
     UploadedFile.data := None;
     UploadedFile.chunk_count := JS.Number 4;
     UploadedFile.error_detail := None |}.

Definition failed_upload : UploadedFile.t :=
  {| UploadedFile.document_id := None;
     UploadedFile.name := "notes.txt";
     UploadedFile.status := UploadedFile.error;
     UploadedFile.data := None;
     UploadedFile.chunk_count := JS.Undefined;
     UploadedFile.error_detail := Some "Yükleme hatası" |}.

(** Three listed documents and a failed upload between them. *)
Definition listing : DocumentUpload.State :=
  {| DocumentUpload.uploading := false;
     DocumentUpload.uploadedFiles :=
       [listed "doc-a"; failed_upload; listed "doc-b"; listed "doc-a"];
     DocumentUpload.dragActive := false |}.

(** Integer vectors compared by their dot product stand in for the
    embeddings and their similarity. *)
Definition dot (a b : list Z) : Q :=
  inject_Z (foldr Z.add 0%Z (zip_with Z.mul a b)).

Definition embed (question : string) : list Z :=
  [Z.of_nat (String.length question); 1%Z].

Definition meta (doc body : string) : EmbeddingIndex.Metadata :=
  {| EmbeddingIndex.document_id := doc;
     EmbeddingIndex.text := body;
     EmbeddingIndex.char_offset_range := (0, String.length body);
     EmbeddingIndex.page_number := Some 1 |}.

Definition corpus : @EmbeddingIndex.t (list Z) :=
  EmbeddingIndex.upsert "c3" [1; 1]%Z (meta "doc-b" "Toplam 860 parça.")
    (EmbeddingIndex.upsert "c2" [0; 2]%Z (meta "doc-a" "Pilot çalışma.")
       (EmbeddingIndex.upsert "c1" [2; 0]%Z (meta "doc-a" "120 belge işlendi.") [])).

Definition stats : Stats.t :=
  {| Stats.total_chunks := 860; Stats.total_documents := 120;
     Stats.collection_name := "documents" |}.

(** A backend that lists two documents. *)
Definition backend : Backend :=
  {| documents_list := fun _ _ =>
       inr {| data := [ {| DocumentInfo.document_id := "doc-a";
                           DocumentInfo.chunk_count := JS.Number 4 |};
                        {| DocumentInfo.document_id := "doc-b";
                           DocumentInfo.chunk_count := JS.Number 7 |} ] |};
     documents_stats := fun _ _ => inr {| data := stats |};
     health := fun _ _ => inr {| data := JS.Str "ok" |} |}.

(** A backend that cannot be reached. *)
Definition unreachable : Backend :=
  {| documents_list := fun _ _ => inl {| detail := None; message := "Network Error" |};
     documents_stats := fun _ _ => inl {| detail := None; message := "Network Error" |};
     health := fun _ _ =>
       inl {| detail := Some "Service Unavailable"; message := "Request failed" |} |}.

(** The same environment with the question and document endpoints down. *)
Definition env_down : Env :=
  {| Number_toString := print_integer;
     questions_single := fun _ _ =>
       inl {| detail := Some "Index unavailable"; message := "Request failed" |};
     questions_upload_json := fun _ _ =>
       inl {| detail := None; message := "Network Error" |};
     documents_upload := fun _ _ =>
       inl {| detail := None; message := "Network Error" |};
     documents_delete := fun _ _ =>
       inl {| detail := None; message := "Network Error" |};
     Date_now := fun _ => "1735689600000";
     Date_toISOString := fun _ => "2025-01-01T00:00:00.000Z";
     confirm := fun _ _ => true |}.

(** A user who answers no to every dialog. *)
Definition env_declining : Env :=
  {| Number_toString := print_integer;
     questions_single := questions_single env;
     questions_upload_json := questions_upload_json env;
     documents_upload := documents_upload env;
     documents_delete := documents_delete env;
     Date_now := Date_now env;
     Date_toISOString := Date_toISOString env;
     confirm := fun _ _ => false |}.

Definition asking : QuestionUpload.State :=
  {| QuestionUpload.question := "Ana konular nelerdir?";
     QuestionUpload.loading := false;
     QuestionUpload.activeTab := QuestionUpload.manual |}.

Definition questions_json : File.t :=
  {| File.name := "questions.json"; File.size := 512; File.type := "application/json" |}.

Definition questions_upper : File.t :=
  {| File.name := "QUESTIONS.JSON"; File.size := 512; File.type := "application/json" |}.

Definition json_tab (f : File.t) : QuestionUpload.State * QuestionUpload.FileInput :=
  ({| QuestionUpload.question := ""; QuestionUpload.loading := false;
      QuestionUpload.activeTab := QuestionUpload.json |},
   {| QuestionUpload.files := [f];
      QuestionUpload.value := "C:\fakepath\" +:+ File.name f |}).

Definition app_start : App.State :=
  {| App.qaResult := None; App.stats := None; App.apiStatus := App.checking |}.

End Sample.

(* ===================================================================== *)
(** * Properties of the runtime fragment                                  *)
(* ===================================================================== *)

Section QueryStrings.
Import JS.

Lemma list_ascii_of_string_app (a b : string) :
  list_ascii_of_string (a +:+ b) = list_ascii_of_string a ++ list_ascii_of_string b.
Proof. induction a as [|c a IH]; simpl; [done | by rewrite IH]. Qed.

Lemma serialize_pair_bytes p :
  list_ascii_of_string (serialize_pair p) = pair_bytes p.
Proof.
  unfold serialize_pair, pair_bytes, encode.
  by rewrite !list_ascii_of_string_app, !list_ascii_of_string_of_list_ascii.
Qed.

Lemma toString_bytes params :
  list_ascii_of_string (toString params) = join_segments (map pair_bytes params).
Proof.
  unfold toString. induction params as [|p [|p' ps] IH]; [done | |].
  - simpl. apply serialize_pair_bytes.
  - change (String.concat "&" (map serialize_pair (p :: p' :: ps)))
      with (serialize_pair p +:+ "&" +:+ String.concat "&" (map serialize_pair (p' :: ps))).
    rewrite !list_ascii_of_string_app, IH, serialize_pair_bytes. done.
Qed.

(** An encoded byte is never a separator. *)
Lemma encode_byte_no_separator a c :
  c ∈ encode_byte a → c ≠ byte 38 ∧ c ≠ byte 61.
Proof.
  destruct a as [[] [] [] [] [] [] [] []]; vm_compute; intros Hc;
    repeat (apply elem_of_cons in Hc as [-> | Hc]; [split; discriminate |]);
    by apply elem_of_nil in Hc.
Qed.

Lemma encode_no_separator l c :
  c ∈ flat_map encode_byte l → c ≠ byte 38 ∧ c ≠ byte 61.
Proof.
  induction l as [|a l IH]; simpl; [by intros ?%elem_of_nil |].
  intros Hc. apply elem_of_app in Hc as [Hc | Hc];
    [by eapply encode_byte_no_separator | by apply IH].
Qed.

Lemma decode_encode_byte a rest :
  decode_bytes (encode_byte a ++ rest) = a :: decode_bytes rest.
Proof. destruct a as [[] [] [] [] [] [] [] []]; reflexivity. Qed.

Lemma decode_encode l : decode_bytes (flat_map encode_byte l) = l.
Proof.
  induction l as [|a l IH]; [done |]. simpl.
  by rewrite decode_encode_byte, IH.
Qed.

Lemma split_first_app sep k v :
  sep ∉ k → split_first sep (k ++ sep :: v) = (k, v).
Proof.
  induction k as [|a k IH]; simpl; intros Hk.
  - by rewrite Ascii.eqb_refl.
  - apply not_elem_of_cons in Hk as [Hne Hk].
    destruct (Ascii.eqb_spec a sep) as [-> | _]; [done |]. by rewrite IH.
Qed.

Lemma parse_pair_bytes p : parse_pair (pair_bytes p) = p.
Proof.
  unfold parse_pair, pair_bytes. rewrite split_first_app.
  - rewrite !decode_encode, !string_of_list_ascii_of_string. by destruct p.
  - intros Hc. apply encode_no_separator in Hc. naive_solver.
Qed.

Lemma split_on_segment sep seg rest :
  sep ∉ seg →
  split_on sep (seg ++ sep :: rest) = seg :: split_on sep rest.
Proof.
  induction seg as [|a seg IH]; simpl; intros Hs.
  - by rewrite Ascii.eqb_refl.
  - apply not_elem_of_cons in Hs as [Hne Hs].
    destruct (Ascii.eqb_spec a sep) as [-> | _]; [done |]. by rewrite IH.
Qed.

Lemma split_on_last sep seg : sep ∉ seg → split_on sep seg = [seg].
Proof.
  induction seg as [|a seg IH]; simpl; intros Hs; [done |].
  apply not_elem_of_cons in Hs as [Hne Hs].
  destruct (Ascii.eqb_spec a sep) as [-> | _]; [done |]. by rewrite IH.
Qed.

Lemma split_on_join segs :
  segs ≠ [] → Forall (fun seg => byte 38 ∉ seg) segs →
  split_on (byte 38) (join_segments segs) = segs.
Proof.
  induction segs as [|seg [|seg' segs] IH]; intros Hne Hall; [done | |].
  - simpl. apply split_on_last. by inversion Hall.
  - inversion Hall as [|? ? Hseg Hrest]; subst.
    change (join_segments (seg :: seg' :: segs))
      with (seg ++ byte 38 :: join_segments (seg' :: segs)).
    rewrite split_on_segment by done. by rewrite IH.
Qed.

Lemma pair_bytes_no_ampersand p : byte 38 ∉ pair_bytes p.
Proof.
  unfold pair_bytes. intros Hc. apply elem_of_app in Hc as [Hc | Hc].
  - apply encode_no_separator in Hc. naive_solver.
  - apply elem_of_cons in Hc as [Hc | Hc]; [discriminate |].
    apply encode_no_separator in Hc. naive_solver.
Qed.

Lemma pair_bytes_nonempty p : negb (length (pair_bytes p) =? 0) = true.
Proof.
  unfold pair_bytes. rewrite length_app. simpl.
  destruct (_ + _ =? 0) eqn:E; [apply Nat.eqb_eq in E; lia | done].
Qed.

(** Reading a serialized parameter list back gives the list itself: the
    query string carries exactly the names and values that were put in. *)
Lemma parse_toString params : parse (toString params) = params.
Proof.
  unfold parse. rewrite toString_bytes.
  destruct params as [|p ps]; [done |].
  rewrite split_on_join; [| done |].
  - rewrite List.forallb_filter_id.
    + rewrite map_map. rewrite <- (map_id (p :: ps)) at 2.
      apply map_ext. intros; apply parse_pair_bytes.
    + apply forallb_forall. intros seg [q [<- _]]%in_map_iff.
      apply pair_bytes_nonempty.
  - apply Forall_forall. intros seg [q [-> _]]%list_elem_of_fmap.
    apply pair_bytes_no_ampersand.
Qed.

End QueryStrings.

Example trim_inner_spaces_kept : JS.trim "  Bu belge  neyi anlatıyor? " = "Bu belge  neyi anlatıyor?".
Proof. reflexivity. Qed.

(** Tabs, line breaks, the no-break space and the ideographic space are all
    white space. *)
Example trim_unicode_blank :
  JS.trim (string_of_list_ascii
             ([JS.byte 9; JS.byte 10; JS.byte 13] ++ JS.utf8 0xA0 ++ JS.utf8 0x3000))
  = "".
Proof. reflexivity. Qed.

Example toString_readme :
  JS.toString [("question", "Bu belge neyi anlatıyor"); ("top_k", "5")]
  = "question=Bu+belge+neyi+anlat%C4%B1yor&top_k=5".
Proof. reflexivity. Qed.

(* ===================================================================== *)
(** * services/api.js: the requests of the question client                *)
(* ===================================================================== *)

Section ApiClient.
Variable env : Env.
Context {S : Type}.

Lemma foldl_append name (ids : list string) params :
  foldl (fun ps id => JS.append name id ps) params ids
  = params ++ map (fun id => (name, id)) ids.
Proof.
  revert params. induction ids as [|id ids IH]; intros params; simpl.
  - by rewrite app_nil_r.
  - rewrite IH. unfold JS.append. by rewrite <- app_assoc.
Qed.

Lemma query_of_path path query :
  JS.byte 63 ∉ list_ascii_of_string path →
  JS.query_of (path +:+ "?" +:+ query) = query.
Proof.
  intros Hp. unfold JS.query_of.
  rewrite !list_ascii_of_string_app. simpl.
  rewrite split_first_app by done. simpl.
  apply string_of_list_ascii_of_string.
Qed.

Lemma askSingle_unfold question options (s : S) tr :
  Api.askSingle env question options s tr
  = let req := {| method := POST;
                  url := "/questions/single?"
                         +:+ JS.toString (Api.askSingle_params env question options);
                  form_file := None; content_type := "application/json" |} in
    (match questions_single env tr req with
     | inr resp => Eff.Return (data resp)
     | inl e => Eff.Throw e
     end, s, tr ++ [Http req]).
Proof.
  unfold Api.askSingle, Api.askSingle_params, mbind, Eff.eff_bind, Eff.bind,
    Eff.request, mret, Eff.eff_ret, Eff.ret.
  set (ps := match Api.document_ids options with Some _ => _ | None => _ end).
  set (ps' := (_ :: _ ++ _)).
  assert (ps = ps') as ->.
  { unfold ps, ps'. destruct (Api.document_ids options) as [ids|];
      destruct (JS.ToBoolean (Api.top_k options)); simpl;
      rewrite ?foldl_append; unfold JS.append; simpl; by rewrite ?app_nil_r. }
  simpl. by destruct (questions_single env tr _).
Qed.

Lemma uploadJSON_unfold file options (s : S) tr :
  Api.uploadJSON env file options s tr
  = let params :=
      (if JS.ToBoolean (Api.top_k options)
       then [("top_k", JS.ToString (Number_toString env) (Api.top_k options))]
       else [])
      ++ (if JS.ToBoolean (Api.min_relevance_score options)
          then [("min_relevance_score",
                 JS.ToString (Number_toString env) (Api.min_relevance_score options))]
          else []) in
    let req := {| method := POST;
                  url := "/questions/upload-json?" +:+ JS.toString params;
                  form_file := Some file;
                  content_type := "multipart/form-data" |} in
    (match questions_upload_json env tr req with
     | inr resp => Eff.Return (data resp)
     | inl e => Eff.Throw e
     end, s, tr ++ [Http req]).
Proof.
  unfold Api.uploadJSON, mbind, Eff.eff_bind, Eff.bind, Eff.request, mret,
    Eff.eff_ret, Eff.ret, JS.append.
  destruct (JS.ToBoolean (Api.top_k options)),
    (JS.ToBoolean (Api.min_relevance_score options)); simpl;
    by destruct (questions_upload_json env tr _).
Qed.

(** C7 (amended): for every question and options object, [askSingle] issues
    exactly one request, a POST to [/questions/single] with no body, whose
    query string carries the question as [question], then [top_k] when
    [options.top_k] is truthy, then one [document_ids] per element of
    [options.document_ids]; the backend reads exactly these parameters back;
    and the call returns the response body unchanged when the request
    succeeds, and rejects with the error of the request otherwise. *)
Theorem askSingle_request question options (s : S) tr :
  let params := Api.askSingle_params env question options in
  let req := {| method := POST;
                url := "/questions/single?" +:+ JS.toString params;
                form_file := None; content_type := "application/json" |} in
  Api.askSingle env question options s tr
  = (match questions_single env tr req with
     | inr resp => Eff.Return (data resp)
     | inl e => Eff.Throw e
     end, s, tr ++ [Http req])
  ∧ Api.sent_params req = params.
Proof.
  intros params req. split; [apply askSingle_unfold |].
  unfold Api.sent_params, req. simpl url.
  change ("/questions/single?" +:+ JS.toString params)
    with ("/questions/single" +:+ "?" +:+ JS.toString params).
  rewrite query_of_path; [apply parse_toString |].
  vm_compute. intros H. repeat (apply elem_of_cons in H as [H | H]; [discriminate |]).
  by apply elem_of_nil in H.
Qed.

(** What the backend reads from a URL made of a path without question
    mark and a serialized parameter list. *)
Lemma sent_params_of_query m path params body ctype :
  JS.byte 63 ∉ list_ascii_of_string path →
  Api.sent_params {| method := m; url := path +:+ "?" +:+ JS.toString params;
                     form_file := body; content_type := ctype |} = params.
Proof.
  intros Hpath. unfold Api.sent_params. simpl url.
  rewrite query_of_path by done. apply parse_toString.
Qed.

Lemma single_path_plain : JS.byte 63 ∉ list_ascii_of_string "/questions/single".
Proof.
  vm_compute. intros H. repeat (apply elem_of_cons in H as [H | H]; [discriminate |]).
  by apply elem_of_nil in H.
Qed.

Lemma upload_json_path_plain :
  JS.byte 63 ∉ list_ascii_of_string "/questions/upload-json".
Proof.
  vm_compute. intros H. repeat (apply elem_of_cons in H as [H | H]; [discriminate |]).
  by apply elem_of_nil in H.
Qed.

(** C8 (amended): an option whose value is falsy ([0], [NaN], the empty
    string, [false], [null]) is treated as absent: [askSingle] and
    [uploadJSON] run exactly as with the option left out (same request, same
    outcome), for [top_k] and for [min_relevance_score], and the one request
    they send carries no parameter of that name.  So the number zero cannot
    be requested; nothing is said of truthy values that stand for zero. *)
Theorem falsy_option_is_absent question file options v (s : S) tr :
  JS.ToBoolean v = false →
  Api.askSingle env question (Api.with_top_k v options) s tr
  = Api.askSingle env question (Api.with_top_k JS.Undefined options) s tr
  ∧ Api.uploadJSON env file (Api.with_top_k v options) s tr
    = Api.uploadJSON env file (Api.with_top_k JS.Undefined options) s tr
  ∧ Api.uploadJSON env file (Api.with_min_relevance_score v options) s tr
    = Api.uploadJSON env file (Api.with_min_relevance_score JS.Undefined options) s tr
  ∧ Api.askSingle env question (Api.with_min_relevance_score v options) s tr
    = Api.askSingle env question (Api.with_min_relevance_score JS.Undefined options) s tr
  ∧ (∃ req,
       (Api.askSingle env question (Api.with_top_k v options) s tr).2
       = tr ++ [Http req]
       ∧ ∀ x, ("top_k", x) ∉ Api.sent_params req)
  ∧ (∃ req,
       (Api.uploadJSON env file (Api.with_top_k v options) s tr).2
       = tr ++ [Http req]
       ∧ ∀ x, ("top_k", x) ∉ Api.sent_params req)
  ∧ (∃ req,
       (Api.uploadJSON env file (Api.with_min_relevance_score v options) s tr).2
       = tr ++ [Http req]
       ∧ ∀ x, ("min_relevance_score", x) ∉ Api.sent_params req).
Proof.
  intros Hv. split; [| split; [| split; [| split; [| split; [| split]]]]].
  1-4: rewrite ?askSingle_unfold, ?uploadJSON_unfold;
       unfold Api.askSingle_params; simpl; by rewrite ?Hv.
  - eexists. split; [rewrite askSingle_unfold; reflexivity |].
    change ("/questions/single?" +:+ ?q) with ("/questions/single" +:+ "?" +:+ q).
    rewrite (sent_params_of_query _ _ _ _ _ single_path_plain).
    unfold Api.askSingle_params. simpl. rewrite Hv. simpl.
    intros x Hin. apply elem_of_cons in Hin as [Hin | Hin]; [discriminate |].
    destruct (Api.document_ids options) as [ids |]; [| by apply elem_of_nil in Hin].
    apply list_elem_of_fmap in Hin as (id & Hid & _). discriminate.
  - eexists. split; [rewrite uploadJSON_unfold; reflexivity |].
    change ("/questions/upload-json?" +:+ ?q)
      with ("/questions/upload-json" +:+ "?" +:+ q).
    rewrite (sent_params_of_query _ _ _ _ _ upload_json_path_plain).
    simpl. rewrite Hv. simpl. intros x Hin.
    destruct (JS.ToBoolean (Api.min_relevance_score options)).
    + apply elem_of_cons in Hin as [Hin | Hin]; [discriminate |].
      by apply elem_of_nil in Hin.
    + by apply elem_of_nil in Hin.
  - eexists. split; [rewrite uploadJSON_unfold; reflexivity |].
    change ("/questions/upload-json?" +:+ ?q)
      with ("/questions/upload-json" +:+ "?" +:+ q).
    rewrite (sent_params_of_query _ _ _ _ _ upload_json_path_plain).
    simpl. rewrite Hv. rewrite app_nil_r. intros x Hin.
    destruct (JS.ToBoolean (Api.top_k options)).
    + apply elem_of_cons in Hin as [Hin | Hin]; [discriminate |].
      by apply elem_of_nil in Hin.
    + by apply elem_of_nil in Hin.
Qed.

End ApiClient.

(** C7, as stated, fails: [top_k: 0] is provided, yet the one request sent
    carries no [top_k] parameter. *)
Lemma askSingle_omits_top_k_zero :
  let options := Api.with_top_k (JS.Number 0) Api.no_options in
  Api.top_k options ≠ JS.Undefined
  ∧ ∃ req, (Api.askSingle Sample.env "Kaç sayfa?" options tt []).2 = [Http req]
           ∧ ∀ v, ("top_k", v) ∉ Api.sent_params req.
Proof.
  split; [discriminate |]. eexists. split; [reflexivity |].
  intros v H. vm_compute in H.
  apply elem_of_cons in H as [H | H]; [discriminate | by apply elem_of_nil in H].
Qed.

Example askSingle_with_options :
  (Api.askSingle Sample.env "Kaç sayfa?"
     {| Api.top_k := JS.Number 5; Api.min_relevance_score := JS.Number (1 # 2);
        Api.document_ids := Some ["doc-a"; "doc-b"] |} tt []).2
  = [Http {| method := POST;
             url := "/questions/single?question=Ka%C3%A7+sayfa%3F&top_k=5"
                    +:+ "&document_ids=doc-a&document_ids=doc-b";
             form_file := None; content_type := "application/json" |}].
Proof. reflexivity. Qed.

Lemma falsy_option_is_absent_witness :
  JS.ToBoolean (JS.Number 0) = false
  ∧ Api.uploadJSON Sample.env Sample.report
      (Api.with_min_relevance_score (JS.Number 0) Api.no_options) tt []
    = Api.uploadJSON Sample.env Sample.report
        (Api.with_min_relevance_score JS.Undefined Api.no_options) tt [].
Proof.
  split; [reflexivity |].
  refine (proj1 (proj2 (proj2 (falsy_option_is_absent Sample.env "Kaç sayfa?"
            Sample.report Api.no_options (JS.Number 0) tt [] _)))).
  reflexivity.
Defined.

(** C8, as stated, fails in its conclusion: a caller can request a zero
    value, by passing it as the string ["0"], which is truthy; the request
    then carries [top_k=0], or [min_relevance_score=0]. *)
Lemma string_zero_is_sent :
  (∃ req,
     (Api.askSingle Sample.env "Kaç sayfa?"
        (Api.with_top_k (JS.Str "0") Api.no_options) tt []).2 = [Http req]
     ∧ ("top_k", "0") ∈ Api.sent_params req)
  ∧ (∃ req,
       (Api.uploadJSON Sample.env Sample.report
          (Api.with_min_relevance_score (JS.Str "0") Api.no_options) tt []).2
       = [Http req]
       ∧ ("min_relevance_score", "0") ∈ Api.sent_params req).
Proof.
  split; (eexists; split; [reflexivity |]); vm_compute; repeat constructor.
Qed.

(* ===================================================================== *)
(** * QuestionUpload.jsx: submitting one question                         *)
(* ===================================================================== *)

Section SubmitQuestion.
Import QuestionUpload.
Variable env : Env.
Variable props : Props.

Lemma requests_of_app tr1 tr2 :
  requests_of (tr1 ++ tr2) = requests_of tr1 ++ requests_of tr2.
Proof. apply omap_app. Qed.

(** C9: when the trimmed question is empty, [handleSubmit] shows the error
    toast and returns: no request is issued, and the component state (the
    stored question and the loading flag with it) is left as it was. *)
Theorem handleSubmit_blank st tr :
  JS.trim (question st) = "" →
  handleSubmit env props st tr
  = (Eff.Return tt, st, tr ++ [PreventDefault; ToastError "Lütfen bir soru yazın!"])
  ∧ requests_of (handleSubmit env props st tr).2 = requests_of tr.
Proof.
  intros Hblank.
  assert (handleSubmit env props st tr
          = (Eff.Return tt, st,
             tr ++ [PreventDefault; ToastError "Lütfen bir soru yazın!"])) as E.
  { unfold handleSubmit, mbind, Eff.eff_bind, Eff.bind, Eff.get, Eff.emit.
    rewrite Hblank. simpl. by rewrite <- app_assoc. }
  split; [done |]. rewrite E. simpl.
  rewrite requests_of_app. simpl. by rewrite app_nil_r.
Qed.

(** C4: a submission that succeeds with answer [r] hands the parent, through
    [onQuestionsProcessed], one batch object with [total_questions = 1],
    [completed = 1], [failed = 0], [results = [r]] and
    [total_processing_time = r.processing_time]; the handler then clears the
    question and the loading flag. *)
Theorem handleSubmit_batch_of_one st tr r :
  let req := {| method := POST;
                url := "/questions/single?"
                       +:+ JS.toString [("question", question st)];
                form_file := None; content_type := "application/json" |} in
  JS.trim (question st) ≠ "" →
  onQuestionsProcessed props = true →
  questions_single env (tr ++ [PreventDefault]) req = inr {| data := r |} →
  ∃ batch,
    handleSubmit env props st tr
    = (Eff.Return tt,
       {| question := ""; loading := false; activeTab := activeTab st |},
       tr ++ [PreventDefault; Http req; ToastSuccess "✅ Soru cevaplandı!" (Some "🤖");
              OnQuestionsProcessed batch])
    ∧ QuestionBatch.total_questions batch = 1%Z
    ∧ QuestionBatch.completed batch = 1%Z
    ∧ QuestionBatch.failed batch = 0%Z
    ∧ QuestionBatch.results batch = [r]
    ∧ QuestionBatch.total_processing_time batch = AnswerResult.processing_time r.
Proof.
  intros req Hq Hcb Hresp.
  unfold handleSubmit, mbind, Eff.eff_bind, Eff.bind, Eff.get, Eff.emit.
  destruct (String.eqb_spec (JS.trim (question st)) "") as [|_]; [done |].
  unfold Eff.try_catch_finally, Eff.bind, setLoading, setQuestion, Eff.modify, Eff.ask.
  rewrite askSingle_unfold. cbn zeta. unfold Api.askSingle_params. simpl.
  fold req. rewrite Hresp, Hcb. simpl.
  eexists. split; [by rewrite <- !app_assoc | done].
Qed.

End SubmitQuestion.

(** A request that fails is reported, and the question is kept. *)
Example handleSubmit_backend_down :
  QuestionUpload.handleSubmit
    {| Number_toString := Sample.print_integer;
       questions_single := fun _ _ =>
         inl {| detail := None; message := "Network Error" |};
       questions_upload_json := questions_upload_json Sample.env;
       documents_upload := documents_upload Sample.env;
       documents_delete := documents_delete Sample.env;
       Date_now := Date_now Sample.env;
       Date_toISOString := Date_toISOString Sample.env;
       confirm := confirm Sample.env |}
    {| QuestionUpload.onQuestionsProcessed := true |}
    {| QuestionUpload.question := "Kaç sayfa?"; QuestionUpload.loading := false;
       QuestionUpload.activeTab := QuestionUpload.manual |} []
  = (Eff.Return tt,
     {| QuestionUpload.question := "Kaç sayfa?"; QuestionUpload.loading := false;
        QuestionUpload.activeTab := QuestionUpload.manual |},
     [PreventDefault;
      Http {| method := POST; url := "/questions/single?question=Ka%C3%A7+sayfa%3F";
              form_file := None; content_type := "application/json" |};
      ToastError "❌ Hata oluştu: Network Error"]).
Proof. reflexivity. Qed.

Lemma handleSubmit_blank_witness :
  let st := {| QuestionUpload.question := "   "; QuestionUpload.loading := false;
               QuestionUpload.activeTab := QuestionUpload.manual |} in
  JS.trim (QuestionUpload.question st) = ""
  ∧ (QuestionUpload.handleSubmit Sample.env
       {| QuestionUpload.onQuestionsProcessed := true |} st []).1.2 = st.
Proof.
  split; [reflexivity |].
  pose proof (handleSubmit_blank Sample.env
    {| QuestionUpload.onQuestionsProcessed := true |}
    {| QuestionUpload.question := "   "; QuestionUpload.loading := false;
       QuestionUpload.activeTab := QuestionUpload.manual |} [] eq_refl) as [E _].
  by rewrite E.
Defined.

Lemma handleSubmit_batch_of_one_witness :
  ∃ batch,
    OnQuestionsProcessed batch
    ∈ (QuestionUpload.handleSubmit Sample.env
         {| QuestionUpload.onQuestionsProcessed := true |}
         {| QuestionUpload.question := "Ana konular nelerdir?";
            QuestionUpload.loading := false;
            QuestionUpload.activeTab := QuestionUpload.manual |} []).2
    ∧ QuestionBatch.results batch = [Sample.answer].
Proof.
  destruct (handleSubmit_batch_of_one Sample.env
    {| QuestionUpload.onQuestionsProcessed := true |}
    {| QuestionUpload.question := "Ana konular nelerdir?";
       QuestionUpload.loading := false;
       QuestionUpload.activeTab := QuestionUpload.manual |} [] Sample.answer)
    as (batch & E & _ & _ & _ & Hres & _).
  - vm_compute. discriminate.
  - reflexivity.
  - reflexivity.
  - exists batch. split; [| exact Hres]. rewrite E. simpl. set_solver.
Defined.

(* ===================================================================== *)
(** * DocumentUpload.jsx: deleting and dropping documents                 *)
(* ===================================================================== *)

Section ManageDocuments.
Import DocumentUpload.
Variable env : Env.
Variable props : Props.

(** C6: a confirmed delete of document [d] that the backend accepts removes
    from the displayed list exactly the entries of [d]: what is kept is the
    old list with entries left out (each kept entry unchanged, in the old
    order), no kept entry belongs to [d], and the old list is what is kept
    together with entries that all belong to [d]. *)
Theorem handleDelete_removes_document st tr d fileName resp :
  let dialog :=
    quote +:+ fileName +:+ quote +:+ " belgesini silmek istediğinize emin misiniz?" in
  let req := {| method := DELETE; url := "/documents/" +:+ d; form_file := None;
                content_type := "application/json" |} in
  confirm env (tr ++ [ConfirmDialog dialog]) dialog = true →
  documents_delete env (tr ++ [ConfirmDialog dialog]) req = inr resp →
  let kept := uploadedFiles (handleDelete env props d fileName st tr).1.2 in
  kept `sublist_of` uploadedFiles st
  ∧ (∀ f, f ∈ kept → UploadedFile.document_id f ≠ Some d)
  ∧ ∃ removed,
      Forall (fun f => UploadedFile.document_id f = Some d) removed
      ∧ uploadedFiles st ≡ₚ kept ++ removed.
Proof.
  intros dialog req Hconfirm Hresp kept.
  assert (kept = filter (fun f => UploadedFile.document_id f ≠ Some d)
                        (uploadedFiles st)) as ->.
  { unfold kept, handleDelete, mbind, Eff.eff_bind, Eff.bind, Eff.emit, Eff.ask.
    fold dialog. rewrite Hconfirm. simpl.
    unfold Eff.try_catch, Eff.try_catch_finally, Eff.bind, Api.delete_document,
      mbind, Eff.eff_bind, Eff.bind, Eff.request.
    fold req. rewrite Hresp. simpl.
    by destruct (onUploadComplete props). }
  split; [apply sublist_filter |]. split.
  - intros f Hf. by apply list_elem_of_filter in Hf as [? _].
  - exists (filter (fun f => ¬ UploadedFile.document_id f ≠ Some d) (uploadedFiles st)).
    split.
    + apply Forall_forall. intros f Hf%list_elem_of_filter.
      destruct Hf as [Hf _]. by apply dec_stable in Hf.
    + symmetry. apply filter_app_complement.
Qed.

(** *** Dropping files *)

Lemma upload_one_unfold file st tr :
  upload_one env file st tr
  = match documents_upload env tr (upload_request file) with
    | inr resp =>
        (Eff.Return
           {| UploadedFile.document_id := Some (UploadResult.document_id (data resp));
              UploadedFile.name := File.name file;
              UploadedFile.status := UploadedFile.success;
              UploadedFile.data := Some (data resp);
              UploadedFile.chunk_count := chunk_count_of (data resp);
              UploadedFile.error_detail := None |},
         st,
         tr ++ [Http (upload_request file);
                ToastSuccess ("✅ " +:+ File.name file +:+ " yüklendi!") (Some "📄")])
    | inl e =>
        (Eff.Return
           {| UploadedFile.document_id := None;
              UploadedFile.name := File.name file;
              UploadedFile.status := UploadedFile.error;
              UploadedFile.data := None;
              UploadedFile.chunk_count := JS.Undefined;
              UploadedFile.error_detail := Some (upload_error_text e) |},
         st,
         tr ++ [Http (upload_request file);
                ToastError ("❌ " +:+ File.name file +:+ " yüklenemedi")])
    end.
Proof.
  unfold upload_one, Eff.try_catch, Eff.try_catch_finally, Api.upload, mbind,
    Eff.eff_bind, Eff.bind, Eff.request, Eff.emit, mret, Eff.eff_ret, Eff.ret.
  fold (upload_request file).
  destruct (documents_upload env tr (upload_request file)); simpl;
    by rewrite <- app_assoc.
Qed.

(** The uploads leave the state alone, never throw, and send requests for
    the given files only. *)
Lemma upload_all_trace files st tr :
  ∃ results evs,
    upload_all env files st tr = (Eff.Return results, st, tr ++ evs)
    ∧ ∀ req, Http req ∈ evs → ∃ g, g ∈ files ∧ req = upload_request g.
Proof.
  revert tr. induction files as [|file files IH]; intros tr.
  - exists [], []. split; [simpl; by rewrite app_nil_r | by intros ? ?%elem_of_nil].
  - simpl. unfold mbind, Eff.eff_bind, Eff.bind. rewrite upload_one_unfold.
    destruct (documents_upload env tr (upload_request file)) as [e | resp].
    all: match goal with
         | |- context [upload_all _ _ _ ?tr'] =>
             destruct (IH tr') as (results & evs & E & Hreq); rewrite E
         end.
    all: eexists _, (_ :: _ :: evs); split;
      [simpl; by rewrite <- app_assoc |].
    all: intros req Hin; apply elem_of_cons in Hin as [Hin | Hin];
      [inversion Hin; subst; exists file; split; [left | done] |].
    all: apply elem_of_cons in Hin as [Hin | Hin]; [discriminate |].
    all: destruct (Hreq req Hin) as (g & Hg & ->); exists g; split; [by right | done].
Qed.

Lemma report_rejection_unfold f st tr :
  Dropzone.fileAccepted f && Dropzone.fileMatchSize f = false →
  report_rejection {| Dropzone.file := f; Dropzone.errors := Dropzone.file_errors f |} st tr
  = (Eff.Return tt, st, tr ++ [rejection_toast f]).
Proof.
  unfold report_rejection, rejection_toast, Dropzone.file_errors. simpl.
  destruct (Dropzone.fileAccepted f), (Dropzone.fileMatchSize f); done.
Qed.

Lemma report_rejections_trace files st tr :
  Forall (fun f => Dropzone.fileAccepted f && Dropzone.fileMatchSize f = false) files →
  Eff.for_of
    (map (fun f => {| Dropzone.file := f; Dropzone.errors := Dropzone.file_errors f |})
         files)
    report_rejection st tr
  = (Eff.Return tt, st, tr ++ map rejection_toast files).
Proof.
  revert tr. induction files as [|f files IH]; intros tr Hall.
  - simpl. unfold Eff.ret. by rewrite app_nil_r.
  - inversion Hall; subst. simpl. unfold Eff.bind.
    rewrite report_rejection_unfold by done. rewrite IH by done.
    by rewrite <- app_assoc.
Qed.

(** C5 (amended): a file larger than the 10 MiB maximum, dropped while the
    zone is enabled, is never sent to the upload endpoint, and an error is
    shown for it: the file-too-large message when its type is accepted, the
    unsupported-format message otherwise. *)
Theorem drop_oversized st tr files f :
  uploading st = false →
  f ∈ files →
  (Dropzone.maxSize < File.size f)%N →
  ∃ st' evs,
    drop env props files st tr = (Eff.Return tt, st', tr ++ evs)
    ∧ (∀ req, Http req ∈ evs → form_file req ≠ Some f)
    ∧ ToastError (File.name f +:+
        (if Dropzone.fileAccepted f then ": Dosya çok büyük (max 10MB)"
         else ": Desteklenmeyen format")) ∈ evs.
Proof.
  intros Hidle Hf Hsize.
  assert (Dropzone.fileMatchSize f = false) as Hbig.
  { unfold Dropzone.fileMatchSize. apply negb_false_iff. by apply N.ltb_lt. }
  unfold drop, mbind, Eff.eff_bind, Eff.bind, Eff.get. rewrite Hidle.
  unfold Dropzone.classify, onDrop, mbind, Eff.eff_bind, Eff.bind.
  set (accepted :=
    List.filter (fun f => Dropzone.fileAccepted f && Dropzone.fileMatchSize f) files).
  set (rejected :=
    List.filter (fun f => negb (Dropzone.fileAccepted f && Dropzone.fileMatchSize f))
                files).
  rewrite report_rejections_trace.
  2:{ apply Forall_forall. intros g Hg%list_elem_of_In%filter_In.
      destruct Hg as [_ Hg]. by apply negb_true_iff in Hg. }
  assert (rejection_toast f ∈ map rejection_toast rejected) as Htoast.
  { apply list_elem_of_fmap. exists f. split; [done |].
    apply list_elem_of_In, filter_In. split; [by apply list_elem_of_In |].
    rewrite Hbig. by rewrite andb_false_r. }
  assert (∀ g, g ∈ accepted → g ≠ f) as Hother.
  { intros g Hg%list_elem_of_In%filter_In ->. destruct Hg as [_ Hg].
    rewrite Hbig, andb_false_r in Hg. done. }
  destruct (length accepted =? 0).
  - unfold mret, Eff.eff_ret, Eff.ret. eexists _, _. split; [done |].
    split; [| done].
    intros req [g [? _]]%list_elem_of_fmap. discriminate.
  - unfold setUploading, setUploadedFiles, Eff.modify. simpl.
    match goal with
    | |- context [upload_all _ _ ?s ?tr'] =>
        destruct (upload_all_trace accepted s tr') as (results & evs & E & Hreq);
        rewrite E
    end.
    destruct (onUploadComplete props); unfold Eff.emit, mret, Eff.eff_ret, Eff.ret.
    all: eexists _, _; split; [by rewrite <- !app_assoc |].
    all: split; [| apply elem_of_app; by left].
    all: intros req [Hin | Hin]%elem_of_app;
      [apply list_elem_of_fmap in Hin as [g [? _]]; discriminate |].
    all: try (apply elem_of_app in Hin as [Hin | Hin];
              [| apply elem_of_cons in Hin as [? | ?%elem_of_nil]; [discriminate | done]]).
    all: destruct (Hreq req Hin) as (g & Hg & ->); simpl;
      intros [= ->]; by apply (Hother f).
Qed.

End ManageDocuments.

Example handleDelete_listing :
  DocumentUpload.uploadedFiles
    (DocumentUpload.handleDelete Sample.env
       {| DocumentUpload.onUploadComplete := true |} "doc-a" "Belge (4 chunk)"
       Sample.listing []).1.2
  = [Sample.failed_upload; Sample.listed "doc-b"].
Proof. reflexivity. Qed.

Lemma handleDelete_removes_document_witness :
  DocumentUpload.uploadedFiles
    (DocumentUpload.handleDelete Sample.env
       {| DocumentUpload.onUploadComplete := true |} "doc-a" "Belge (4 chunk)"
       Sample.listing []).1.2
  `sublist_of` DocumentUpload.uploadedFiles Sample.listing.
Proof.
  refine (proj1 (handleDelete_removes_document Sample.env
    {| DocumentUpload.onUploadComplete := true |} Sample.listing [] "doc-a"
    "Belge (4 chunk)" {| data := tt |} _ _)); reflexivity.
Defined.

(** C5, as stated, fails: an oversized file of a type the zone does not
    accept is turned away with the unsupported-format message; no
    file-too-large error is shown for it. *)
Lemma drop_oversized_archive_not_too_large :
  (Dropzone.maxSize < File.size Sample.archive)%N
  ∧ (DocumentUpload.drop Sample.env {| DocumentUpload.onUploadComplete := true |}
       [Sample.archive] Sample.idle []).2
    = [ToastError "archive.zip: Desteklenmeyen format"]
  ∧ ToastError "archive.zip: Dosya çok büyük (max 10MB)"
    ∉ (DocumentUpload.drop Sample.env {| DocumentUpload.onUploadComplete := true |}
         [Sample.archive] Sample.idle []).2.
Proof.
  split; [reflexivity |]. split; [reflexivity |].
  intros H. vm_compute in H.
  apply elem_of_cons in H as [H | H]; [discriminate | by apply elem_of_nil in H].
Qed.

(** While an upload is in progress the zone is disabled and a drop does
    nothing at all. *)
Example drop_while_uploading :
  DocumentUpload.drop Sample.env {| DocumentUpload.onUploadComplete := true |}
    [Sample.scan]
    {| DocumentUpload.uploading := true; DocumentUpload.uploadedFiles := [];
       DocumentUpload.dragActive := false |} []
  = (Eff.Return tt,
     {| DocumentUpload.uploading := true; DocumentUpload.uploadedFiles := [];
        DocumentUpload.dragActive := false |}, []).
Proof. reflexivity. Qed.

(** A small file and an oversized one dropped together: the first is
    uploaded and listed, the second only reported. *)
Example drop_report_and_scan :
  DocumentUpload.drop Sample.env {| DocumentUpload.onUploadComplete := false |}
    [Sample.report; Sample.scan] Sample.idle []
  = (Eff.Return tt,
     {| DocumentUpload.uploading := false;
        DocumentUpload.uploadedFiles :=
          [{| UploadedFile.document_id := Some "doc-report.pdf";
              UploadedFile.name := "report.pdf";
              UploadedFile.status := UploadedFile.success;
              UploadedFile.data :=
                Some {| UploadResult.document_id := "doc-report.pdf";
                        UploadResult.metadata :=
                          Some {| UploadResult.total_chunks := JS.Number 4 |} |};
              UploadedFile.chunk_count := JS.Number 4;
              UploadedFile.error_detail := None |}];
        DocumentUpload.dragActive := false |},
     [ToastError "scan.pdf: Dosya çok büyük (max 10MB)";
      Http (DocumentUpload.upload_request Sample.report);
      ToastSuccess "✅ report.pdf yüklendi!" (Some "📄")]).
Proof. reflexivity. Qed.

Lemma drop_oversized_witness :
  (Dropzone.maxSize < File.size Sample.scan)%N
  ∧ ∃ st' evs,
      DocumentUpload.drop Sample.env {| DocumentUpload.onUploadComplete := true |}
        [Sample.report; Sample.scan] Sample.idle [] = (Eff.Return tt, st', evs)
      ∧ ToastError "scan.pdf: Dosya çok büyük (max 10MB)" ∈ evs.
Proof.
  split; [reflexivity |].
  destruct (drop_oversized Sample.env {| DocumentUpload.onUploadComplete := true |}
              Sample.idle [] [Sample.report; Sample.scan] Sample.scan)
    as (st' & evs & E & _ & Htoast).
  - reflexivity.
  - set_solver.
  - reflexivity.
  - exists st', evs. split; [exact E | exact Htoast].
Defined.

(* ===================================================================== *)
(** * ResultsView.jsx: the badges                                         *)
(* ===================================================================== *)

Section Badges.
Import ResultsView.

Lemma verification_config_missing status :
  status ∉ ["verified"; "partial"; "unverified"] →
  Verification.configs !! status = None.
Proof.
  intros H. unfold Verification.configs.
  rewrite !lookup_insert_ne, lookup_empty; [done | set_solver..].
Qed.

Lemma match_type_config_missing matchType :
  matchType ∉ ["exact"; "paraphrase"; "inference"] →
  MatchType.configs !! matchType = None.
Proof.
  intros H. unfold MatchType.configs.
  rewrite !lookup_insert_ne, lookup_empty; [done | set_solver..].
Qed.

(** A value that is neither one of the three keys nor the name of a
    member of [Object.prototype] gets the fallback presentation. *)
Lemma badges_fall_back value :
  value ∉ JSObject.Object_prototype →
  (value ∉ ["verified"; "partial"; "unverified"] →
   VerificationBadge value = VerificationBadge "unverified")
  ∧ (value ∉ ["exact"; "paraphrase"; "inference"] →
     MatchTypeBadge value = MatchTypeBadge "inference").
Proof.
  intros Hproto. split; intros Hkeys.
  - assert (JSObject.get Verification.configs value = JSObject.Undefined) as E.
    { unfold JSObject.get. rewrite verification_config_missing by done.
      by rewrite bool_decide_eq_false_2. }
    unfold VerificationBadge. rewrite E. reflexivity.
  - assert (JSObject.get MatchType.configs value = JSObject.Undefined) as E.
    { unfold JSObject.get. rewrite match_type_config_missing by done.
      by rewrite bool_decide_eq_false_2. }
    unfold MatchTypeBadge. rewrite E. reflexivity.
Qed.

(** C10 fails on the code: the status [constructor] is outside the three
    known values, yet [configs[status]] finds the inherited
    [Object.prototype.constructor], which is truthy, so no fallback happens:
    the icon is [undefined] and rendering the verification badge fails; the
    match-type badge renders, but with [undefined] classes and no text
    instead of the inference presentation. *)
Theorem badges_on_constructor :
  ("constructor" ∉ ["verified"; "partial"; "unverified"])
  ∧ VerificationBadge "constructor" = inl InvalidElementType
  ∧ VerificationBadge "unverified" ≠ inl InvalidElementType
  ∧ MatchTypeBadge "constructor"
    = inr {| className := "px-2 py-1 rounded text-xs font-medium undefined undefined";
             badge_icon := None; label := "" |}
  ∧ MatchTypeBadge "constructor" ≠ MatchTypeBadge "inference".
Proof.
  split; [set_solver |]. split; [reflexivity |]. split; [discriminate |].
  split; [reflexivity |]. discriminate.
Qed.

End Badges.

(* ===================================================================== *)
(** * The chunker: putting the text back together                         *)
(* ===================================================================== *)

Section Chunking.
Import Chunker.
Context {Char : Type}.
Variable boundary : list Char -> nat -> nat -> nat.

Lemma slice_then_rest (t : list Char) from to :
  from ≤ to → slice t from to ++ drop to t = drop from t.
Proof.
  intros Hle. unfold slice.
  replace (drop to t) with (drop (to - from) (drop from t)).
  - apply take_drop.
  - rewrite drop_drop. f_equal. lia.
Qed.

Lemma slice_to_end (t : list Char) from : slice t from (length t) = drop from t.
Proof. unfold slice. apply take_ge. rewrite length_drop. lia. Qed.

Lemma length_slice (t : list Char) from to :
  to ≤ length t → length (slice t from to) = to - from.
Proof. intros H. unfold slice. rewrite length_take, length_drop. lia. Qed.

Lemma cut_window (t : list Char) chunk_size chunk_overlap start :
  chunk_overlap < chunk_size →
  start + chunk_overlap < cut boundary t chunk_size chunk_overlap start
  ∧ cut boundary t chunk_size chunk_overlap start ≤ start + chunk_size.
Proof. unfold cut. lia. Qed.

(** From any start, the chunks are not empty, the first one is at least as
    long as the overlap when that much text is left, and the chunks put
    together give the text from [start] on. *)
Lemma chunks_from_reassemble (t : list Char) pbs chunk_size chunk_overlap start :
  chunk_overlap < chunk_size →
  ∃ c cs,
    chunks_from boundary t pbs chunk_size chunk_overlap start = c :: cs
    ∧ (start + chunk_overlap ≤ length t → chunk_overlap ≤ length (text c))
    ∧ text c ++ concat (map (drop chunk_overlap) (map text cs)) = drop start t.
Proof.
  intros Hconf.
  funelim (chunks_from boundary t pbs chunk_size chunk_overlap start).
  - eexists _, []. split; [done |]. simpl. rewrite app_nil_r, slice_to_end.
    split; [| done]. rewrite length_drop. lia.
  - destruct (cut_window t chunk_size chunk_overlap start Hconf) as [Hlo Hhi].
    set (e := cut boundary t chunk_size chunk_overlap start) in *.
    destruct (H Hconf) as (c' & cs' & E & Hlen & Hrest).
    rewrite E. eexists _, _. split; [done |]. simpl text.
    split; [intros _; rewrite length_slice; lia |].
    simpl. rewrite <- drop_app_le by lia. rewrite Hrest, drop_drop.
    replace (e - chunk_overlap + chunk_overlap) with e by lia.
    apply slice_then_rest. lia.
Qed.

(** C1: for every text and every configuration with
    [chunk_overlap < chunk_size], whatever the boundary search prefers,
    [chunk] succeeds, and concatenating the chunk texts in order, leaving out
    the first [chunk_overlap] characters of every chunk after the first,
    gives back the text. *)
Theorem chunk_reassembles (t : list Char) pbs chunk_size chunk_overlap :
  chunk_overlap < chunk_size →
  ∃ chunks,
    chunk boundary t pbs chunk_size chunk_overlap = inr chunks
    ∧ reassemble chunk_overlap (map text chunks) = t.
Proof.
  intros Hconf. unfold chunk.
  destruct (Nat.leb_spec chunk_size chunk_overlap) as [? | _]; [lia |].
  destruct (Nat.eqb_spec (length t) 0) as [Hnil | _].
  - exists []. split; [done |]. by destruct t.
  - destruct (chunks_from_reassemble t pbs chunk_size chunk_overlap 0 Hconf)
      as (c & cs & E & _ & Hall).
    exists (c :: cs). split; [by rewrite E |]. exact Hall.
Qed.

(** A configuration with [chunk_overlap >= chunk_size] is refused. *)
Lemma chunk_config_error (t : list Char) pbs chunk_size chunk_overlap :
  chunk_size ≤ chunk_overlap →
  chunk boundary t pbs chunk_size chunk_overlap = inl OverlapNotBelowSize.
Proof.
  intros H. unfold chunk. by destruct (Nat.leb_spec chunk_size chunk_overlap); [| lia].
Qed.

End Chunking.

Lemma chunk_reassembles_witness :
  3 < 10
  ∧ ∃ chunks,
      Chunker.chunk Chunker.hard_cut
        (list_ascii_of_string "Querova belgeleri parçalara böler ve dizine ekler.")
        [0; 20] 10 3 = inr chunks
      ∧ Chunker.reassemble 3 (map Chunker.text chunks)
        = list_ascii_of_string "Querova belgeleri parçalara böler ve dizine ekler.".
Proof.
  split; [lia |].
  apply (chunk_reassembles Chunker.hard_cut
           (list_ascii_of_string "Querova belgeleri parçalara böler ve dizine ekler.")
           [0; 20] 10 3).
  lia.
Defined.

(** The scenario of the specification: 1500 characters on three pages, with
    [chunk_size = 500] and [chunk_overlap = 50], give four chunks; the first
    has 500 characters, the last at most 500, and the second starts with the
    last 50 characters of the first. *)
Example chunk_scenario :
  let t := map (fun n => JS.byte (N.of_nat (97 + n mod 26))) (seq 0 1500) in
  match Chunker.chunk Chunker.hard_cut t [0; 500; 1000] 500 50 with
  | inr [c0; c1; c2; c3] =>
      length (Chunker.text c0) = 500
      ∧ length (Chunker.text c3) ≤ 500
      ∧ take 50 (Chunker.text c1) = drop 450 (Chunker.text c0)
      ∧ map Chunker.page_number [c0; c1; c2; c3] = [Some 1; Some 1; Some 2; Some 3]
  | _ => False
  end.
Proof. vm_compute. repeat split; lia. Qed.

(* ===================================================================== *)
(** * The embedding index and the retriever                               *)
(* ===================================================================== *)

Section IndexQueries.
Import EmbeddingIndex.
Context {Embedding : Type}.
Variable similarity : Embedding -> Embedding -> Q.

#[local] Abbreviation Entry := (@Entry Embedding).

Lemma insert_ranked_perm (h : Entry * Q) ranking :
  insert_ranked h ranking ≡ₚ h :: ranking.
Proof.
  induction ranking as [|h' rest IH]; simpl; [done |].
  destruct (Qle_bool h'.2 h.2); [done |].
  rewrite IH. apply Permutation_swap.
Qed.

(** Ranking reorders the hits; it neither adds nor drops any. *)
Lemma rank_perm (hits : list (Entry * Q)) : rank hits ≡ₚ hits.
Proof.
  induction hits as [|h hits IH]; simpl; [done |].
  by rewrite insert_ranked_perm, IH.
Qed.

(** Every hit of a search is an entry of the index, in scope, with its
    similarity to the query as score. *)
Lemma search_sound idx q k filter (x : Entry) score :
  (x, score) ∈ search similarity idx q k filter →
  x ∈ idx ∧ in_scope filter x = true ∧ score = similarity q (embedding x).
Proof.
  unfold search. intros Hin.
  apply (subseteq_take k) in Hin. rewrite rank_perm in Hin.
  apply list_elem_of_fmap in Hin as (y & [= -> ->] & Hy).
  apply list_elem_of_In, filter_In in Hy as [Hy Hscope].
  by apply list_elem_of_In in Hy.
Qed.

Lemma length_search idx q k filter :
  length (search similarity idx q k filter) ≤ k.
Proof. unfold search. rewrite length_take. lia. Qed.

Lemma query_sound idx q k filter id score :
  (id, score) ∈ query similarity idx q k filter →
  ∃ x : Entry, x ∈ idx ∧ chunk_id x = id.
Proof.
  unfold query. intros ([x s] & [= -> ->] & Hin)%list_elem_of_fmap.
  apply search_sound in Hin as (Hx & _ & _). by exists x.
Qed.

Lemma delete_sound doc idx (x : Entry) :
  x ∈ delete doc idx ↔ x ∈ idx ∧ document_id (metadata x) ≠ doc.
Proof.
  unfold delete. rewrite list_elem_of_In, filter_In, <- list_elem_of_In.
  rewrite negb_true_iff.
  destruct (String.eqb_spec (document_id (metadata x)) doc); naive_solver.
Qed.

Lemma upsert_owner id e m idx (x : Entry) :
  x ∈ upsert id e m idx → chunk_id x = id → document_id (metadata x) = document_id m.
Proof.
  unfold upsert. destruct (existsb _ idx) eqn:Hex.
  - intros (y & -> & Hy)%list_elem_of_fmap.
    destruct (String.eqb_spec (chunk_id y) id); simpl; [done | by intros].
  - intros [Hx | ->%list_elem_of_singleton]%elem_of_app; [| done].
    intros Hid. exfalso.
    assert (existsb (fun y : Entry => String.eqb (chunk_id y) id) idx = true) as E.
    { apply existsb_exists. exists x. split; [by apply list_elem_of_In |].
      by apply String.eqb_eq. }
    congruence.
Qed.

Lemma upsert_delete_absent id e m (idx : list Entry) :
  absent id (delete (document_id m) (upsert id e m idx)).
Proof.
  intros x [Hx Hdoc]%delete_sound Hid. by apply Hdoc, (upsert_owner id e m idx).
Qed.

Lemma upsert_other_absent id id' e m (idx : list Entry) :
  id' ≠ id → absent id idx → absent id (upsert id' e m idx).
Proof.
  intros Hne Habs x. unfold upsert. destruct (existsb _ idx).
  - intros (y & -> & Hy)%list_elem_of_fmap.
    destruct (String.eqb_spec (chunk_id y) id'); [by simpl | by apply Habs].
  - intros [Hx | ->%list_elem_of_singleton]%elem_of_app; [by apply Habs | by simpl].
Qed.

Lemma step_absent id (idx : list Entry) op :
  stores id op = false → absent id idx → absent id (step similarity idx op).1.
Proof.
  destruct op as [id' e m | doc | q k filter]; simpl; intros Hop Habs.
  - apply upsert_other_absent; [| done]. by apply String.eqb_neq.
  - intros x [Hx _]%delete_sound. by apply Habs.
  - done.
Qed.

Lemma run_absent id (idx : list Entry) ops :
  Forall (fun op => stores id op = false) ops →
  absent id idx →
  Forall (fun ranking : list (string * Q) => ∀ score, (id, score) ∉ ranking)
         (run similarity idx ops).2.
Proof.
  revert idx. induction ops as [|op ops IH]; intros idx Hops Habs; simpl; [done |].
  inversion Hops as [|? ? Hop Hrest]; subst.
  pose proof (step_absent id idx op Hop Habs) as Habs'.
  destruct (step similarity idx op) as [idx' answer] eqn:Estep.
  specialize (IH idx' Hrest Habs').
  destruct (run similarity idx' ops) as [final answers]. simpl in *.
  destruct answer as [ranking |]; [| done].
  constructor; [| done].
  intros score Hin. destruct op as [| | q k filter]; try discriminate.
  injection Estep as <- <-.
  apply query_sound in Hin as (x & Hx & Hid). by apply (Habs x).
Qed.

(** C2: once chunk [id] has been upserted under a document and that
    document has been deleted, no query answered afterwards contains the
    chunk, whatever the query embedding, [k] and filter, and whatever other
    operations come in between, as long as none stores the chunk again. *)
Theorem deleted_chunk_never_returned (idx : list Entry) id e m later :
  Forall (fun op => stores id op = false) later →
  Forall (fun ranking : list (string * Q) => ∀ score, (id, score) ∉ ranking)
         (run similarity (delete (document_id m) (upsert id e m idx)) later).2.
Proof.
  intros Hlater. apply run_absent; [done |]. apply upsert_delete_absent.
Qed.

(** The next query, in particular. *)
Corollary deleted_chunk_not_in_query (idx : list Entry) id e m q k filter score :
  (id, score) ∉ query similarity (delete (document_id m) (upsert id e m idx)) q k filter.
Proof.
  intros (x & Hx & Hid)%query_sound. by apply (upsert_delete_absent id e m idx x).
Qed.

Lemma filter_none {A} (f : A → bool) (l : list A) :
  (∀ x, x ∈ l → f x = false) → List.filter f l = [].
Proof.
  induction l as [|a l IH]; intros Hall; simpl; [done |].
  rewrite (Hall a) by left. apply IH. intros x Hx. apply Hall. by right.
Qed.

(** *** The retriever *)

Variable embed : string -> Embedding.

(** C3: for every question, [top_k] and [min_relevance_score], [retrieve]
    on a reachable index answers with a sequence of at most [top_k] chunks,
    each with a similarity of at least [min_relevance_score] to the question;
    when no chunk in scope reaches the threshold the sequence is empty, and
    the answer is still not an error. *)
Theorem retrieve_bounded (idx : list Entry) question top_k min_relevance_score
    document_ids :
  ∃ chunks,
    Retriever.retrieve similarity embed (Some idx) question top_k
      min_relevance_score document_ids = inr chunks
    ∧ length chunks ≤ top_k
    ∧ (∀ c, c ∈ chunks →
         (min_relevance_score <= similarity (embed question) (embedding c))%Q)
    ∧ ((∀ x, x ∈ idx → in_scope document_ids x = true →
          (similarity (embed question) (embedding x) < min_relevance_score)%Q) →
       chunks = []).
Proof.
  eexists. split; [reflexivity |]. split; [| split].
  - rewrite length_map.
    etrans; [apply filter_length_le | apply length_search].
  - intros c ([x s] & -> & Hin)%list_elem_of_fmap.
    apply list_elem_of_In, filter_In in Hin as [Hin Hs].
    apply list_elem_of_In, search_sound in Hin as (_ & _ & ->).
    by apply Qle_bool_iff.
  - intros Hbelow.
    rewrite filter_none; [done |].
    intros [x s] (Hx & Hscope & ->)%search_sound. simpl.
    apply not_true_is_false. intros Hle%Qle_bool_iff.
    by apply (Qlt_not_le _ _ (Hbelow x Hx Hscope)).
Qed.

End IndexQueries.

(** Equal scores keep their insertion order; the filter narrows the scope. *)
Example query_corpus :
  EmbeddingIndex.query Sample.dot Sample.corpus [1; 1]%Z 2 None
  = [("c1", 2 # 1); ("c2", 2 # 1)]
  ∧ EmbeddingIndex.query Sample.dot Sample.corpus [1; 1]%Z 5 (Some ["doc-b"])
    = [("c3", 2 # 1)].
Proof. split; reflexivity. Qed.

Lemma deleted_chunk_never_returned_witness :
  let later :=
    [EmbeddingIndex.Query [1; 1]%Z 5 None;
     EmbeddingIndex.Upsert "c5" [3; 1]%Z (Sample.meta "doc-a" "Yeni parça.");
     EmbeddingIndex.Query [1; 0]%Z 5 (Some ["doc-a"; "doc-c"])] in
  Forall (fun op => EmbeddingIndex.stores "c4" op = false) later
  ∧ Forall (fun ranking : list (string * Q) => ∀ score, ("c4", score) ∉ ranking)
      (EmbeddingIndex.run Sample.dot
         (EmbeddingIndex.delete "doc-c"
            (EmbeddingIndex.upsert "c4" [5; 5]%Z (Sample.meta "doc-c" "Ek.")
               Sample.corpus))
         later).2.
Proof.
  intros later. split; [by repeat constructor |].
  apply (deleted_chunk_never_returned Sample.dot Sample.corpus "c4" [5; 5]%Z
           (Sample.meta "doc-c" "Ek.") later).
  by repeat constructor.
Defined.

Lemma retrieve_bounded_witness :
  Retriever.retrieve Sample.dot Sample.embed (Some Sample.corpus)
    "Kaç belge işlendi?" 3 (100 # 1) None = inr [].
Proof.
  destruct (retrieve_bounded Sample.dot Sample.embed Sample.corpus
              "Kaç belge işlendi?" 3 (100 # 1) None)
    as (chunks & E & _ & _ & Hempty).
  refine (eq_trans E _). f_equal. apply Hempty. intros x Hx _.
  repeat (apply elem_of_cons in Hx as [-> | Hx]; [reflexivity |]).
  by apply elem_of_nil in Hx.
Defined.

(* ===================================================================== *)
(** * services/api.js: the remaining calls                                *)
(* ===================================================================== *)

Section ApiCalls.
Variable env : Env.
Variable backend : Backend.
Context {S : Type}.

(** X1: [uploadJSON] issues exactly one request, a multipart POST to
    [/questions/upload-json] carrying the file, whose query string holds
    [top_k] and then [min_relevance_score], each only when truthy, and
    nothing else; the backend reads exactly these parameters back; the call
    returns the response body when the request succeeds and rejects with the
    error of the request otherwise. *)
Theorem uploadJSON_request file options (s : S) tr :
  let params :=
    (if JS.ToBoolean (Api.top_k options)
     then [("top_k", JS.ToString (Number_toString env) (Api.top_k options))]
     else [])
    ++ (if JS.ToBoolean (Api.min_relevance_score options)
        then [("min_relevance_score",
               JS.ToString (Number_toString env) (Api.min_relevance_score options))]
        else []) in
  let req := {| method := POST;
                url := "/questions/upload-json?" +:+ JS.toString params;
                form_file := Some file; content_type := "multipart/form-data" |} in
  Api.uploadJSON env file options s tr
  = (match questions_upload_json env tr req with
     | inr resp => Eff.Return (data resp)
     | inl e => Eff.Throw e
     end, s, tr ++ [Http req])
  ∧ Api.sent_params req = params.
Proof.
  intros params req. split; [apply uploadJSON_unfold |].
  unfold Api.sent_params, req. simpl url.
  change ("/questions/upload-json?" +:+ JS.toString params)
    with ("/questions/upload-json" +:+ "?" +:+ JS.toString params).
  rewrite query_of_path; [apply parse_toString |].
  vm_compute. intros H. repeat (apply elem_of_cons in H as [H | H]; [discriminate |]).
  by apply elem_of_nil in H.
Qed.

Lemma healthCheck_unfold (s : S) tr :
  Api.healthCheck backend s tr
  = (match health backend tr Api.health_request with
     | inr resp => Eff.Return (data resp)
     | inl _ => Eff.Throw {| detail := None; message := "API is not reachable" |}
     end, s, tr ++ [Http Api.health_request]).
Proof.
  unfold Api.healthCheck, Eff.try_catch, Eff.try_catch_finally, mbind,
    Eff.eff_bind, Eff.bind, Eff.request, Eff.throw, mret, Eff.eff_ret, Eff.ret.
  fold Api.health_request. by destruct (health backend tr Api.health_request).
Qed.

(** X2: [healthCheck] issues one GET for the health endpoint, and any two
    failures of that request look the same to the caller: the error it
    throws is always the fixed "API is not reachable", without the detail or
    the message of the failure. *)
Theorem healthCheck_masks_errors (s : S) tr e :
  health backend tr Api.health_request = inl e →
  Api.healthCheck backend s tr
  = (Eff.Throw {| detail := None; message := "API is not reachable" |},
     s, tr ++ [Http Api.health_request]).
Proof. intros H. by rewrite healthCheck_unfold, H. Qed.

End ApiCalls.

(* ===================================================================== *)
(** * App.jsx: status, statistics and the callbacks                       *)
(* ===================================================================== *)

Section AppShell.
Import App.
Variable backend : Backend.

Lemma getStats_unfold {S} (s : S) tr :
  Api.getStats backend s tr
  = (match documents_stats backend tr Api.stats_request with
     | inr resp => Eff.Return (data resp)
     | inl e => Eff.Throw e
     end, s, tr ++ [Http Api.stats_request]).
Proof.
  unfold Api.getStats, mbind, Eff.eff_bind, Eff.bind, Eff.request, mret,
    Eff.eff_ret, Eff.ret.
  fold Api.stats_request. by destruct (documents_stats backend tr Api.stats_request).
Qed.

Lemma loadStats_unfold st tr :
  loadStats backend st tr
  = (Eff.Return tt,
     match documents_stats backend tr Api.stats_request with
     | inr resp => {| qaResult := qaResult st; stats := Some (data resp);
                      apiStatus := apiStatus st |}
     | inl _ => st
     end,
     tr ++ [Http Api.stats_request]).
Proof.
  unfold loadStats, Eff.try_catch, Eff.try_catch_finally, mbind, Eff.eff_bind,
    Eff.bind. rewrite getStats_unfold.
  by destruct (documents_stats backend tr Api.stats_request).
Qed.

(** X3: [checkAPIHealth] never throws, issues exactly one request (the
    health check), leaves the result and the statistics alone, and always
    leaves the [checking] state: the status is [connected] when the request
    succeeded and [disconnected] when it failed. *)
Theorem checkAPIHealth_status st tr :
  ∃ st',
    checkAPIHealth backend st tr
    = (Eff.Return tt, st', tr ++ [Http Api.health_request])
    ∧ qaResult st' = qaResult st
    ∧ stats st' = stats st
    ∧ apiStatus st' ≠ checking
    ∧ (apiStatus st' = connected
       ↔ ∃ resp, health backend tr Api.health_request = inr resp).
Proof.
  unfold checkAPIHealth, Eff.try_catch, Eff.try_catch_finally, mbind,
    Eff.eff_bind, Eff.bind. rewrite healthCheck_unfold.
  destruct (health backend tr Api.health_request) as [e | resp]; simpl;
    eexists; (split; [reflexivity |]); simpl; repeat split; try done.
  - intros [resp' ?]. discriminate.
  - by exists resp.
Qed.

(** X4: [loadStats] never throws and issues exactly one request, for the
    statistics; when it succeeds the statistics shown are the ones answered,
    and when it fails the state is left exactly as it was (the statistics of
    an earlier load stay on screen). *)
Theorem loadStats_outcome st tr :
  ∃ st',
    loadStats backend st tr
    = (Eff.Return tt, st', tr ++ [Http Api.stats_request])
    ∧ qaResult st' = qaResult st
    ∧ apiStatus st' = apiStatus st
    ∧ match documents_stats backend tr Api.stats_request with
      | inr resp => stats st' = Some (data resp)
      | inl _ => st' = st
      end.
Proof.
  rewrite loadStats_unfold. eexists. split; [reflexivity |].
  by destruct (documents_stats backend tr Api.stats_request).
Qed.

End AppShell.

Lemma healthCheck_masks_errors_witness :
  Api.healthCheck Sample.unreachable tt []
  = (Eff.Throw {| detail := None; message := "API is not reachable" |},
     tt, [Http Api.health_request]).
Proof.
  apply (healthCheck_masks_errors Sample.unreachable tt []
           {| detail := Some "Service Unavailable"; message := "Request failed" |}).
  reflexivity.
Defined.

Example checkAPIHealth_unreachable :
  App.apiStatus (App.checkAPIHealth Sample.unreachable Sample.app_start []).1.2
  = App.disconnected.
Proof. reflexivity. Qed.

(* ===================================================================== *)
(** * QuestionUpload.jsx: failures, repeated submits, the JSON tab        *)
(* ===================================================================== *)

Section AskQuestions.
Import QuestionUpload.
Variable env : Env.
Variable props : Props.

(** What [handleSubmit] does with a question that is not blank. *)
Lemma handleSubmit_unfold st tr :
  JS.trim (question st) ≠ "" →
  let tr1 := tr ++ [PreventDefault] in
  let req := single_request (question st) in
  handleSubmit env props st tr
  = match questions_single env tr1 req with
    | inr resp =>
        let shown := tr1 ++ [Http req; ToastSuccess "✅ Soru cevaplandı!" (Some "🤖")] in
        (Eff.Return tt,
         {| question := ""; loading := false; activeTab := activeTab st |},
         shown ++
         (if onQuestionsProcessed props
          then [OnQuestionsProcessed
                  {| QuestionBatch.batch_id := Date_now env shown;
                     QuestionBatch.total_questions := 1;
                     QuestionBatch.completed := 1;
                     QuestionBatch.failed := 0;
                     QuestionBatch.results := [data resp];
                     QuestionBatch.total_processing_time :=
                       AnswerResult.processing_time (data resp);
                     QuestionBatch.timestamp := Date_toISOString env shown |}]
          else []))
    | inl e =>
        (Eff.Return tt,
         {| question := question st; loading := false; activeTab := activeTab st |},
         tr1 ++ [Http req; ToastError ("❌ Hata oluştu: " +:+ error_text e)])
    end.
Proof.
  intros Hq tr1 req.
  unfold handleSubmit, mbind, Eff.eff_bind, Eff.bind, Eff.get, Eff.emit.
  destruct (String.eqb_spec (JS.trim (question st)) "") as [|_]; [done |].
  unfold Eff.try_catch_finally, Eff.bind, setLoading, setQuestion, Eff.modify, Eff.ask.
  rewrite askSingle_unfold. cbn zeta. unfold Api.askSingle_params. simpl.
  fold (single_request (question st)). fold req. fold tr1.
  destruct (questions_single env tr1 req) as [e | resp]; simpl.
  - by rewrite <- !app_assoc.
  - destruct (onQuestionsProcessed props); simpl;
      by rewrite <- ?app_assoc, ?app_nil_r.
Qed.

(** X5: when the request of a submission fails, [handleSubmit] shows one
    error toast, made of the detail of the response when there is one and
    of the message of the error otherwise; the parent is not called, the
    question typed is kept, and the loading flag is cleared. *)
Theorem handleSubmit_failure st tr e :
  JS.trim (question st) ≠ "" →
  questions_single env (tr ++ [PreventDefault]) (single_request (question st)) = inl e →
  handleSubmit env props st tr
  = (Eff.Return tt,
     {| question := question st; loading := false; activeTab := activeTab st |},
     tr ++ [PreventDefault; Http (single_request (question st));
            ToastError ("❌ Hata oluştu: " +:+
                        match detail e with
                        | Some d => if String.eqb d "" then message e else d
                        | None => message e
                        end)]).
Proof.
  intros Hq He. rewrite handleSubmit_unfold by done. cbn zeta. rewrite He.
  by rewrite <- app_assoc.
Qed.

(** X6: whatever the backend answers, [handleSubmit] on a question that is
    not blank never throws, issues exactly one request, ends with the
    loading flag cleared, and leaves the active tab alone. *)
Theorem handleSubmit_settles st tr :
  JS.trim (question st) ≠ "" →
  ∃ st' evs,
    handleSubmit env props st tr = (Eff.Return tt, st', tr ++ evs)
    ∧ loading st' = false
    ∧ activeTab st' = activeTab st
    ∧ requests_of evs = [single_request (question st)].
Proof.
  intros Hq. rewrite handleSubmit_unfold by done. cbn zeta.
  destruct (questions_single env _ _) as [e | resp].
  - eexists _, _. split; [by rewrite <- app_assoc |]. done.
  - destruct (onQuestionsProcessed props);
      eexists _, _; (split; [by rewrite <- !app_assoc |]); done.
Qed.

(** X7: a submission that succeeded clears the question, so submitting
    again right away is refused as blank: the second run shows the error
    toast and issues no request. *)
Theorem handleSubmit_twice st tr resp :
  JS.trim (question st) ≠ "" →
  questions_single env (tr ++ [PreventDefault]) (single_request (question st))
  = inr resp →
  let first := handleSubmit env props st tr in
  let second := handleSubmit env props first.1.2 first.2 in
  second.1.2 = {| question := ""; loading := false; activeTab := activeTab st |}
  ∧ requests_of second.2 = requests_of tr ++ [single_request (question st)]
  ∧ last second.2 = Some (ToastError "Lütfen bir soru yazın!").
Proof.
  intros Hq Hresp first second. unfold second, first.
  rewrite (handleSubmit_unfold st tr Hq). cbn zeta. rewrite Hresp. cbn [fst snd].
  set (st1 := {| question := ""; loading := false; activeTab := activeTab st |}).
  match goal with |- context [handleSubmit env props st1 ?t] => set (tr1 := t) end.
  assert (handleSubmit env props st1 tr1
          = (Eff.Return tt, st1,
             tr1 ++ [PreventDefault; ToastError "Lütfen bir soru yazın!"])) as ->.
  { unfold handleSubmit, mbind, Eff.eff_bind, Eff.bind, Eff.get, Eff.emit.
    simpl. by rewrite <- app_assoc. }
  cbn [fst snd]. split; [done |]. split.
  - unfold tr1. rewrite !requests_of_app.
    destruct (onQuestionsProcessed props); simpl; by rewrite !app_nil_r.
  - replace (tr1 ++ [PreventDefault; ToastError "Lütfen bir soru yazın!"])
      with ((tr1 ++ [PreventDefault]) ++ [ToastError "Lütfen bir soru yazın!"])
      by (by rewrite <- app_assoc).
    apply last_snoc.
Qed.

(** *** The JSON tab *)

Lemma handleJSONUpload_unfold st input file rest tr :
  files input = file :: rest →
  endsWith (File.name file) ".json" = true →
  handleJSONUpload env props (st, input) tr
  = (Eff.Return tt,
     ({| question := question st; loading := false; activeTab := activeTab st |},
      {| files := []; value := "" |}),
     tr ++ Http (json_request file)
        :: match questions_upload_json env tr (json_request file) with
           | inr resp =>
               ToastSuccess
                 ("✅ " +:+ JS.ToString (Number_toString env)
                              (JS.Number (inject_Z (QuestionBatch.completed (data resp))))
                  +:+ " soru cevaplandı!") None
               :: (if onQuestionsProcessed props
                   then [OnQuestionsProcessed (data resp)] else [])
           | inl e => [ToastError ("❌ JSON yükleme hatası: " +:+ error_text e)]
           end).
Proof.
  intros Hfiles Hjson.
  unfold handleJSONUpload, mbind, Eff.eff_bind, Eff.bind, Eff.get. simpl.
  rewrite Hfiles, Hjson. simpl.
  unfold Eff.try_catch_finally, Eff.bind, Eff.on_fst, Eff.modify_snd, setLoading,
    Eff.modify. cbn [fst snd].
  rewrite uploadJSON_unfold. cbn zeta. simpl.
  fold (json_request file).
  destruct (questions_upload_json env tr (json_request file)) as [e | resp]; simpl.
  - unfold Eff.emit. by rewrite <- app_assoc.
  - unfold Eff.emit. destruct (onQuestionsProcessed props); simpl;
      by rewrite <- !app_assoc.
Qed.

(** X8: when no file is selected, or the name of the first selected file
    does not end in [.json] (in lower case), [handleJSONUpload] sends
    nothing: no request is issued, the parent is not called, and the
    component state and the file input are left as they were. *)
Theorem handleJSONUpload_refuses s tr :
  (∀ file, head (files s.2) = Some file → endsWith (File.name file) ".json" = false) →
  ∃ evs,
    handleJSONUpload env props s tr = (Eff.Return tt, s, tr ++ evs)
    ∧ requests_of evs = []
    ∧ ∀ batch, OnQuestionsProcessed batch ∉ evs.
Proof.
  intros Hrefuse.
  unfold handleJSONUpload, mbind, Eff.eff_bind, Eff.bind, Eff.get. simpl.
  destruct (files s.2) as [|file rest].
  - exists []. split; [by rewrite app_nil_r |]. split; [done |].
    by intros ? ?%elem_of_nil.
  - rewrite (Hrefuse file eq_refl). simpl. eexists [_]. split; [done |].
    split; [done |]. intros batch Hin.
    apply elem_of_cons in Hin as [? | ?%elem_of_nil]; [discriminate | done].
Qed.

(** X9: when the first selected file is a [.json] file, [handleJSONUpload]
    uploads that file, and only that one, in a single request without query
    parameters; a batch answered by the backend is handed to the parent as
    it is; in every case the handler ends without throwing, with the
    loading flag cleared and the file input emptied. *)
Theorem handleJSONUpload_uploads st input file rest tr :
  files input = file :: rest →
  endsWith (File.name file) ".json" = true →
  ∃ evs,
    handleJSONUpload env props (st, input) tr
    = (Eff.Return tt,
       ({| question := question st; loading := false; activeTab := activeTab st |},
        {| files := []; value := "" |}),
       tr ++ evs)
    ∧ requests_of evs = [json_request file]
    ∧ Api.sent_params (json_request file) = []
    ∧ ∀ batch,
        OnQuestionsProcessed batch ∈ evs
        ↔ onQuestionsProcessed props = true
          ∧ questions_upload_json env tr (json_request file) = inr {| data := batch |}.
Proof.
  intros Hfiles Hjson. rewrite (handleJSONUpload_unfold st input file rest) by done.
  eexists. split; [reflexivity |].
  destruct (questions_upload_json env tr (json_request file)) as [e | [result]];
    [| destruct (onQuestionsProcessed props)]; simpl.
  all: split; [done |]. all: split; [reflexivity |].
  all: intros batch; split.
  - intros Hin. repeat (apply elem_of_cons in Hin as [Hin | Hin]; [discriminate |]).
    by apply elem_of_nil in Hin.
  - intros [_ ?]. discriminate.
  - intros Hin. repeat (apply elem_of_cons in Hin as [Hin | Hin]; [try discriminate |]).
    + by injection Hin as <-.
    + by apply elem_of_nil in Hin.
  - intros [_ [= ->]]. set_solver.
  - intros Hin. repeat (apply elem_of_cons in Hin as [Hin | Hin]; [discriminate |]).
    by apply elem_of_nil in Hin.
  - intros [? _]. discriminate.
Qed.

End AskQuestions.

(* ===================================================================== *)
(** * DocumentUpload.jsx: listing, uploading, failed and repeated deletes *)
(* ===================================================================== *)

Section ListDocuments.
Import DocumentUpload.
Variable env : Env.
Variable backend : Backend.
Variable props : Props.

(** X10: [loadDocuments] never throws and issues exactly one request, for
    the list.  When it succeeds the displayed list is replaced by one
    successful entry per listed document, in the order of the answer and
    with the document ids of the answer; when it fails the state is left
    exactly as it was.  The other fields are never touched. *)
Theorem loadDocuments_outcome st tr :
  ∃ st',
    loadDocuments env backend st tr
    = (Eff.Return tt, st', tr ++ [Http Api.list_request])
    ∧ uploading st' = uploading st
    ∧ dragActive st' = dragActive st
    ∧ match documents_list backend tr Api.list_request with
      | inr resp =>
          map UploadedFile.document_id (uploadedFiles st')
          = map (fun doc => Some (DocumentInfo.document_id doc)) (data resp)
          ∧ map UploadedFile.chunk_count (uploadedFiles st')
            = map DocumentInfo.chunk_count (data resp)
          ∧ Forall well_formed (uploadedFiles st')
      | inl _ => st' = st
      end.
Proof.
  unfold loadDocuments, Eff.try_catch, Eff.try_catch_finally, Api.list, mbind,
    Eff.eff_bind, Eff.bind, Eff.request, mret, Eff.eff_ret, Eff.ret,
    setUploadedFiles, Eff.modify.
  fold Api.list_request.
  destruct (documents_list backend tr Api.list_request) as [e | resp]; simpl.
  - by exists st.
  - eexists. split; [reflexivity |]. simpl. repeat split.
    + by rewrite map_map.
    + by rewrite map_map.
    + apply Forall_forall. intros entry (doc & -> & _)%list_elem_of_fmap.
      unfold well_formed. simpl. by split.
Qed.

(** *** Uploads *)

Lemma requests_of_toasts (fs : list File.t) :
  requests_of (map rejection_toast fs) = [].
Proof. by induction fs. Qed.

Lemma callbacks_of_toasts (fs : list File.t) :
  callbacks_of (map rejection_toast fs) = [].
Proof. by induction fs. Qed.

Lemma callbacks_of_app tr1 tr2 :
  callbacks_of (tr1 ++ tr2) = callbacks_of tr1 ++ callbacks_of tr2.
Proof. apply List.filter_app. Qed.

Lemma upload_one_entry file st tr :
  ∃ toast,
    upload_one env file st tr
    = (Eff.Return (entry_of file (documents_upload env tr (upload_request file))),
       st, tr ++ [Http (upload_request file); toast])
    ∧ requests_of [toast] = []
    ∧ callbacks_of [toast] = [].
Proof.
  rewrite upload_one_unfold. unfold entry_of.
  destruct (documents_upload env tr (upload_request file)); by eexists.
Qed.

(** The uploads leave the state alone and never throw; they send one
    request per file, in order, call nobody, and yield one well-formed entry
    per file, named after it: the entry for the answer the backend gave to
    the upload of that file, at the moment of that upload (each upload adds
    two events). *)
Lemma upload_all_results files st tr :
  ∃ results evs,
    upload_all env files st tr = (Eff.Return results, st, tr ++ evs)
    ∧ requests_of evs = map upload_request files
    ∧ callbacks_of evs = []
    ∧ map UploadedFile.name results = map File.name files
    ∧ Forall well_formed results
    ∧ length evs = 2 * length files
    ∧ ∀ i file,
        files !! i = Some file →
        results !! i
        = Some (entry_of file
                  (documents_upload env (tr ++ take (2 * i) evs) (upload_request file))).
Proof.
  revert tr. induction files as [|file files IH]; intros tr.
  - exists [], []. simpl. rewrite app_nil_r. repeat split; done.
  - simpl. unfold mbind, Eff.eff_bind, Eff.bind.
    destruct (upload_one_entry file st tr) as (toast & E1 & Hquiet & Htoast).
    rewrite E1.
    destruct (IH (tr ++ [Http (upload_request file); toast]))
      as (results & evs & E & Hreq & Hcb & Hnames & Hwf & Hlen & Htie).
    rewrite E.
    exists (entry_of file (documents_upload env tr (upload_request file)) :: results),
           (Http (upload_request file) :: toast :: evs).
    split; [simpl; by rewrite <- app_assoc |].
    split.
    { change (Http (upload_request file) :: toast :: evs)
        with ([Http (upload_request file)] ++ [toast] ++ evs).
      by rewrite !requests_of_app, Hquiet, Hreq. }
    split.
    { change (Http (upload_request file) :: toast :: evs)
        with ([Http (upload_request file)] ++ [toast] ++ evs).
      by rewrite !callbacks_of_app, Htoast, Hcb. }
    split; [simpl; rewrite Hnames; f_equal;
            by destruct (documents_upload env tr (upload_request file)) |].
    split.
    { constructor; [| done]. unfold well_formed, entry_of.
      destruct (documents_upload env tr (upload_request file)); simpl; by split. }
    split; [simpl; lia |].
    intros [|i] file' Hi; simpl in Hi.
    + injection Hi as <-. simpl. by rewrite app_nil_r.
    + change ((entry_of file (documents_upload env tr (upload_request file))
               :: results) !! S i) with (results !! i).
      rewrite (Htie i file' Hi). do 3 f_equal.
      rewrite <- app_assoc. f_equal.
      match goal with
      | |- _ = take ?n _ => replace n with (S (S (2 * i))) by lia
      end.
      reflexivity.
Qed.

Lemma rejected_of_filter files :
  rejected_of files
  = List.filter (fun f => negb (Dropzone.fileAccepted f && Dropzone.fileMatchSize f))
                files.
Proof.
  unfold rejected_of, Dropzone.classify. cbn [snd]. rewrite map_map.
  induction (List.filter _ files) as [|f l IH]; simpl; [done |].
  f_equal. exact IH.
Qed.

(** What a drop on the enabled zone does. *)
Lemma drop_enabled st tr files :
  uploading st = false →
  ∃ results rest,
    drop env props files st tr
    = (Eff.Return tt,
       {| uploading := false; uploadedFiles := results ++ uploadedFiles st;
          dragActive := dragActive st |},
       tr ++ map rejection_toast (rejected_of files) ++ rest)
    ∧ requests_of rest = map upload_request (accepted_of files)
    ∧ callbacks_of rest
      = (if onUploadComplete props && negb (length (accepted_of files) =? 0)
         then [OnUploadComplete (Some results)] else [])
    ∧ map UploadedFile.name results = map File.name (accepted_of files)
    ∧ Forall well_formed results
    ∧ ∀ i file,
        accepted_of files !! i = Some file →
        results !! i
        = Some (entry_of file
                  (documents_upload env
                     (tr ++ map rejection_toast (rejected_of files) ++ take (2 * i) rest)
                     (upload_request file))).
Proof.
  intros Hidle.
  unfold drop, mbind, Eff.eff_bind, Eff.bind, Eff.get. rewrite Hidle.
  rewrite rejected_of_filter.
  unfold accepted_of, Dropzone.classify, onDrop, mbind, Eff.eff_bind, Eff.bind.
  cbn [fst snd].
  set (accepted :=
    List.filter (fun f => Dropzone.fileAccepted f && Dropzone.fileMatchSize f) files).
  set (rejected :=
    List.filter (fun f => negb (Dropzone.fileAccepted f && Dropzone.fileMatchSize f))
                files).
  rewrite report_rejections_trace.
  2:{ apply Forall_forall. intros g Hg%list_elem_of_In%filter_In.
      destruct Hg as [_ Hg]. by apply negb_true_iff in Hg. }
  destruct (length accepted =? 0) eqn:Hlen.
  - apply Nat.eqb_eq, nil_length_inv in Hlen. rewrite Hlen.
    exists [], []. rewrite andb_false_r, app_nil_r.
    split.
    { unfold mret, Eff.eff_ret, Eff.ret. destruct st; simpl in *. by rewrite Hidle. }
    repeat split; done.
  - unfold setUploading, setUploadedFiles, Eff.modify. simpl.
    match goal with
    | |- context [upload_all _ _ ?s ?tr'] =>
        destruct (upload_all_results accepted s tr')
          as (results & evs & E & Hreq & Hcb & Hnames & Hwf & Hevs & Htie);
        rewrite E
    end.
    rewrite andb_true_r.
    assert (∀ i file (extra : list Event),
              accepted !! i = Some file →
              results !! i
              = Some (entry_of file
                        (documents_upload env
                           (tr ++ map rejection_toast rejected ++ take (2 * i) (evs ++ extra))
                           (upload_request file)))) as Htie'.
    { intros i file extra Hi. rewrite (Htie i file Hi).
      apply lookup_lt_Some in Hi. rewrite take_app_le by lia.
      by rewrite <- app_assoc. }
    destruct (onUploadComplete props); unfold Eff.emit, mret, Eff.eff_ret, Eff.ret.
    + exists results, (evs ++ [OnUploadComplete (Some results)]).
      split; [by rewrite <- !app_assoc |].
      rewrite !requests_of_app, !callbacks_of_app, Hreq, Hcb. simpl.
      rewrite app_nil_r. repeat split; try done. intros i file. apply Htie'.
    + exists results, evs.
      split; [by rewrite <- !app_assoc |].
      repeat split; try done. intros i file Hi.
      rewrite <- (app_nil_r evs) at 1. by apply Htie'.
Qed.


(** X12: a drop on the enabled zone never throws and ends with the zone
    enabled again, whether the uploads succeed or not.  One entry per
    uploaded file, named after it and in drop order, is put in front of the
    entries already listed, which are kept as they are.  Each new entry
    records how the upload of its file went, at the moment it was sent (after
    the rejection toasts and the two events of every earlier upload): for an
    answer, a successful entry with the answered document id and body and the
    answered number of chunks, or zero when that is missing or falsy; for an
    error, a failed entry without document id, with the detail of the error
    or the default text.  So an entry has a document id exactly when its
    upload succeeded.  The parent is called once, with exactly the new
    entries, when at least one file was uploaded and a callback was passed,
    and not at all otherwise. *)
Theorem drop_lists_results st tr files :
  uploading st = false →
  ∃ results rest,
    drop env props files st tr
    = (Eff.Return tt,
       {| uploading := false; uploadedFiles := results ++ uploadedFiles st;
          dragActive := dragActive st |},
       tr ++ map rejection_toast (rejected_of files) ++ rest)
    ∧ map UploadedFile.name results = map File.name (accepted_of files)
    ∧ Forall well_formed results
    ∧ callbacks_of (map rejection_toast (rejected_of files) ++ rest)
      = (if onUploadComplete props && negb (length (accepted_of files) =? 0)
         then [OnUploadComplete (Some results)] else [])
    ∧ length results = length (accepted_of files)
    ∧ ∀ i file,
        accepted_of files !! i = Some file →
        results !! i
        = Some
            match documents_upload env
                    (tr ++ map rejection_toast (rejected_of files) ++ take (2 * i) rest)
                    (upload_request file) with
            | inr resp =>
                {| UploadedFile.document_id :=
                     Some (UploadResult.document_id (data resp));
                   UploadedFile.name := File.name file;
                   UploadedFile.status := UploadedFile.success;
                   UploadedFile.data := Some (data resp);
                   UploadedFile.chunk_count :=
                     match UploadResult.metadata (data resp) with
                     | Some m =>
                         if JS.ToBoolean (UploadResult.total_chunks m)
                         then UploadResult.total_chunks m else JS.Number 0
                     | None => JS.Number 0
                     end;
                   UploadedFile.error_detail := None |}
            | inl e =>
                {| UploadedFile.document_id := None;
                   UploadedFile.name := File.name file;
                   UploadedFile.status := UploadedFile.error;
                   UploadedFile.data := None;
                   UploadedFile.chunk_count := JS.Undefined;
                   UploadedFile.error_detail :=
                     Some match detail e with
                          | Some d => if String.eqb d "" then "Yükleme hatası" else d
                          | None => "Yükleme hatası"
                          end |}
            end.
Proof.
  intros Hidle.
  destruct (drop_enabled st tr files Hidle)
    as (results & rest & E & _ & Hcb & Hnames & Hwf & Htie).
  exists results, rest.
  split; [done |]. split; [done |]. split; [done |].
  split; [by rewrite callbacks_of_app, callbacks_of_toasts |].
  split.
  - rewrite <- (length_map UploadedFile.name results), Hnames. apply length_map.
  - intros i file Hi. rewrite (Htie i file Hi). unfold entry_of.
    by destruct (documents_upload env _ _).
Qed.

(** X19: on the enabled zone every file that fails a check is reported
    before anything is uploaded: the drop first shows one error toast per
    rejected file, in drop order, the unsupported-format message when the
    type is not accepted and the file-too-large message otherwise, and only
    then sends its requests. *)
Theorem drop_reports_rejections st tr files :
  uploading st = false →
  ∃ rest,
    (drop env props files st tr).2
    = tr ++ map (fun f => ToastError (File.name f +:+
                   (if Dropzone.fileAccepted f then ": Dosya çok büyük (max 10MB)"
                    else ": Desteklenmeyen format")))
                (List.filter (fun f => negb (Dropzone.fileAccepted f
                                             && negb (Dropzone.maxSize <? File.size f)%N))
                             files)
         ++ rest
    ∧ requests_of (drop env props files st tr).2 = requests_of tr ++ requests_of rest.
Proof.
  intros Hidle.
  destruct (drop_enabled st tr files Hidle) as (results & rest & E & _).
  exists rest. rewrite E. cbn [snd]. split.
  - by rewrite rejected_of_filter.
  - by rewrite !requests_of_app, requests_of_toasts.
Qed.

(** *** Deletes that do not go through *)

Lemma handleDelete_unfold st tr d fileName :
  let tr1 := tr ++ [ConfirmDialog (delete_dialog fileName)] in
  handleDelete env props d fileName st tr
  = if confirm env tr1 (delete_dialog fileName) then
      match documents_delete env tr1 (delete_request d) with
      | inr _ =>
          (Eff.Return tt,
           {| uploading := uploading st;
              uploadedFiles :=
                filter (fun f => UploadedFile.document_id f ≠ Some d) (uploadedFiles st);
              dragActive := dragActive st |},
           tr1 ++ [Http (delete_request d); ToastSuccess "🗑️ Belge silindi" None]
               ++ (if onUploadComplete props then [OnUploadComplete None] else []))
      | inl _ =>
          (Eff.Return tt, st,
           tr1 ++ [Http (delete_request d); ToastError "❌ Silme başarısız"])
      end
    else (Eff.Return tt, st, tr1).
Proof.
  intros tr1.
  unfold handleDelete, mbind, Eff.eff_bind, Eff.bind, Eff.emit, Eff.ask.
  fold (delete_dialog fileName). fold tr1.
  destruct (confirm env tr1 (delete_dialog fileName)); simpl; [| done].
  unfold Eff.try_catch, Eff.try_catch_finally, Eff.bind, Api.delete_document,
    mbind, Eff.eff_bind, Eff.bind, Eff.request.
  fold (delete_request d).
  destruct (documents_delete env tr1 (delete_request d)) as [e | resp]; simpl.
  - by rewrite <- app_assoc.
  - destruct (onUploadComplete props); simpl; by rewrite <- ?app_assoc, ?app_nil_r.
Qed.

(** X13: when the user answers no to the question, [handleDelete] does
    nothing else: no request is issued, no toast is shown, the parent is not
    called, and the state is left as it was. *)
Theorem handleDelete_cancelled st tr d fileName :
  confirm env (tr ++ [ConfirmDialog (delete_dialog fileName)]) (delete_dialog fileName)
  = false →
  handleDelete env props d fileName st tr
  = (Eff.Return tt, st, tr ++ [ConfirmDialog (delete_dialog fileName)]).
Proof. intros H. rewrite handleDelete_unfold. cbn zeta. by rewrite H. Qed.

(** X14: when the backend refuses a confirmed delete, [handleDelete] shows
    the failure toast and nothing else happens: the handler does not throw,
    the displayed list and the rest of the state are left as they were, and
    the parent is not called. *)
Theorem handleDelete_failed st tr d fileName e :
  confirm env (tr ++ [ConfirmDialog (delete_dialog fileName)]) (delete_dialog fileName)
  = true →
  documents_delete env (tr ++ [ConfirmDialog (delete_dialog fileName)])
    (delete_request d) = inl e →
  handleDelete env props d fileName st tr
  = (Eff.Return tt, st,
     tr ++ [ConfirmDialog (delete_dialog fileName); Http (delete_request d);
            ToastError "❌ Silme başarısız"]).
Proof.
  intros Hc He. rewrite handleDelete_unfold. cbn zeta. rewrite Hc, He.
  by rewrite <- app_assoc.
Qed.

(** X15: two deletes that go through, of [d] and then of [d'], leave the
    entries of the old list that belong to neither, in their old order; so
    the order of the two deletes does not matter for the list, and deleting
    the same document a second time changes nothing. *)
Theorem handleDelete_twice st tr d d' fileName fileName' resp resp' :
  let first := handleDelete env props d fileName st tr in
  let second := handleDelete env props d' fileName' first.1.2 first.2 in
  confirm env (tr ++ [ConfirmDialog (delete_dialog fileName)]) (delete_dialog fileName)
  = true →
  documents_delete env (tr ++ [ConfirmDialog (delete_dialog fileName)])
    (delete_request d) = inr resp →
  confirm env (first.2 ++ [ConfirmDialog (delete_dialog fileName')])
    (delete_dialog fileName') = true →
  documents_delete env (first.2 ++ [ConfirmDialog (delete_dialog fileName')])
    (delete_request d') = inr resp' →
  uploadedFiles second.1.2
  = filter (fun f => UploadedFile.document_id f ≠ Some d
                     ∧ UploadedFile.document_id f ≠ Some d')
           (uploadedFiles st).
Proof.
  intros first second Hc He Hc' He'. unfold second.
  rewrite handleDelete_unfold. cbn zeta. rewrite Hc', He'. cbn [fst snd uploadedFiles].
  unfold first. rewrite handleDelete_unfold. cbn zeta. rewrite Hc, He.
  cbn [fst snd uploadedFiles].
  rewrite list_filter_filter. apply list_filter_iff. naive_solver.
Qed.

End ListDocuments.

(* ===================================================================== *)
(** * The components under App.jsx                                        *)
(* ===================================================================== *)

Section Wiring.
Variable env : Env.
Variable backend : Backend.

(** X16: end to end, a question that is answered reaches the results view:
    after [handleSubmit] succeeds with answer [r] and the parent has handled
    the events raised, the result the parent holds is a batch with
    [total_questions = 1], [completed = 1], [failed = 0] and
    [results = [r]]; the parent itself sends nothing, and its status and
    statistics are untouched. *)
Theorem answer_reaches_results st tr app resp :
  JS.trim (QuestionUpload.question st) ≠ "" →
  questions_single env (tr ++ [PreventDefault])
    (QuestionUpload.single_request (QuestionUpload.question st)) = inr resp →
  let run := QuestionUpload.handleSubmit env
               {| QuestionUpload.onQuestionsProcessed := true |} st tr in
  let parent := App.deliver backend (drop (length tr) run.2) app run.2 in
  (∃ batch,
     App.qaResult parent.1.2 = Some batch
     ∧ QuestionBatch.total_questions batch = 1%Z
     ∧ QuestionBatch.completed batch = 1%Z
     ∧ QuestionBatch.failed batch = 0%Z
     ∧ QuestionBatch.results batch = [data resp])
  ∧ App.stats parent.1.2 = App.stats app
  ∧ App.apiStatus parent.1.2 = App.apiStatus app
  ∧ parent.2 = run.2.
Proof.
  intros Hq Hresp run parent. unfold parent, run.
  rewrite (handleSubmit_unfold env _ st tr Hq). cbn zeta. rewrite Hresp.
  cbn [fst snd QuestionUpload.onQuestionsProcessed].
  rewrite <- !app_assoc, drop_app_length. simpl.
  split; [| done]. eexists. split; [reflexivity |]. done.
Qed.

(** X17: end to end, a delete that goes through makes the parent reload its
    statistics: the requests sent are the DELETE for the document and then
    one GET for the statistics, and the statistics the parent holds are the
    ones answered, or the earlier ones when that request fails. *)
Theorem delete_reloads_stats st tr app d fileName resp :
  let dialog := DocumentUpload.delete_dialog fileName in
  confirm env (tr ++ [ConfirmDialog dialog]) dialog = true →
  documents_delete env (tr ++ [ConfirmDialog dialog]) (DocumentUpload.delete_request d)
  = inr resp →
  let run := DocumentUpload.handleDelete env
               {| DocumentUpload.onUploadComplete := true |} d fileName st tr in
  let parent := App.deliver backend (drop (length tr) run.2) app run.2 in
  requests_of parent.2
  = requests_of tr ++ [DocumentUpload.delete_request d; Api.stats_request]
  ∧ App.stats parent.1.2
    = match documents_stats backend run.2 Api.stats_request with
      | inr answer => Some (data answer)
      | inl _ => App.stats app
      end
  ∧ App.qaResult parent.1.2 = App.qaResult app.
Proof.
  intros dialog Hc He run parent. unfold parent, run.
  rewrite handleDelete_unfold. cbn zeta. fold dialog. rewrite Hc, He.
  cbn [fst snd DocumentUpload.onUploadComplete].
  set (tr' := (tr ++ [ConfirmDialog dialog]) ++ _ ++ _).
  assert (drop (length tr) tr'
          = [ConfirmDialog dialog; Http (DocumentUpload.delete_request d);
             ToastSuccess "🗑️ Belge silindi" None; OnUploadComplete None]) as ->.
  { unfold tr'. rewrite <- !app_assoc. by rewrite drop_app_length. }
  unfold App.deliver. simpl. unfold Eff.bind, mret, Eff.eff_ret, Eff.ret.
  unfold App.handleUploadComplete. rewrite loadStats_unfold. cbn [fst snd].
  split; [| split].
  - unfold tr'. rewrite !requests_of_app. simpl. by rewrite <- !app_assoc.
  - by destruct (documents_stats backend tr' Api.stats_request).
  - by destruct (documents_stats backend tr' Api.stats_request).
Qed.

End Wiring.

(* ===================================================================== *)
(** * ResultsView.jsx: the question type label                            *)
(* ===================================================================== *)

(** X18: [getQuestionTypeLabel] gives each of the four question types its
    own label, and gives the fallback label to every other value that is not
    the name of a member of [Object.prototype]. *)
Theorem getQuestionTypeLabel_falls_back type :
  type ∉ JSObject.Object_prototype →
  ResultsView.getQuestionTypeLabel type
  = JSObject.Own
      (if decide (type = "open_ended") then "📝 Açık Uçlu"
       else if decide (type = "multiple_choice") then "✅ Çoktan Seçmeli"
       else if decide (type = "true_false") then "⚖️ Doğru/Yanlış"
       else if decide (type = "short_answer") then "💬 Kısa Cevap"
       else "❓ Soru").
Proof.
  intros Hproto. unfold ResultsView.getQuestionTypeLabel, JSObject.get,
    ResultsView.labels.
  repeat (case_decide; [subst; reflexivity |]).
  rewrite !lookup_insert_ne by congruence. rewrite lookup_empty.
  by rewrite bool_decide_eq_false_2.
Qed.

(** X20: rendering the verification badge fails exactly when the status is
    the name of a member of [Object.prototype]; every other status renders,
    and every other status besides [verified] and [partial] renders as
    [unverified]. *)
Theorem VerificationBadge_fails_exactly status :
  (ResultsView.VerificationBadge status = inl ResultsView.InvalidElementType
   ↔ status ∈ JSObject.Object_prototype)
  ∧ (status ∉ JSObject.Object_prototype →
     status ≠ "verified" → status ≠ "partial" →
     ResultsView.VerificationBadge status = ResultsView.VerificationBadge "unverified").
Proof.
  destruct (decide (status ∈ ["verified"; "partial"; "unverified"])) as [Hkey | Hkey].
  - assert (status ∉ JSObject.Object_prototype
            ∧ ResultsView.VerificationBadge status ≠ inl ResultsView.InvalidElementType
            ∧ (status ≠ "verified" → status ≠ "partial" → status = "unverified"))
      as (Hproto & Hok & Hlast).
    { repeat (apply elem_of_cons in Hkey as [-> | Hkey]);
        [split; [set_solver | split; [discriminate | done]]..
        | by apply elem_of_nil in Hkey]. }
    split; [split; [done | by intros ?] |].
    intros _ H1 H2. by rewrite (Hlast H1 H2).
  - assert (JSObject.get ResultsView.Verification.configs status
            = if bool_decide (status ∈ JSObject.Object_prototype)
              then JSObject.Builtin status else JSObject.Undefined) as E.
    { unfold JSObject.get. by rewrite verification_config_missing. }
    destruct (decide (status ∈ JSObject.Object_prototype)) as [Hp | Hp].
    + assert (ResultsView.VerificationBadge status
              = inl ResultsView.InvalidElementType) as ->.
      { unfold ResultsView.VerificationBadge. rewrite E.
        by rewrite bool_decide_eq_true_2. }
      split; [done | by intros ?].
    + assert (ResultsView.VerificationBadge status
              = ResultsView.VerificationBadge "unverified") as ->.
      { unfold ResultsView.VerificationBadge at 1. rewrite E.
        rewrite bool_decide_eq_false_2 by done. reflexivity. }
      split; [| done]. split; [| done].
      intros H. vm_compute in H. discriminate.
Qed.

(* ===================================================================== *)
(** * The properties above on the stand-in environment                    *)
(* ===================================================================== *)

Lemma handleSubmit_failure_witness :
  QuestionUpload.handleSubmit Sample.env_down
    {| QuestionUpload.onQuestionsProcessed := true |} Sample.asking []
  = (Eff.Return tt, Sample.asking,
     [PreventDefault;
      Http (QuestionUpload.single_request "Ana konular nelerdir?");
      ToastError "❌ Hata oluştu: Index unavailable"]).
Proof.
  apply (handleSubmit_failure Sample.env_down
           {| QuestionUpload.onQuestionsProcessed := true |} Sample.asking []
           {| detail := Some "Index unavailable"; message := "Request failed" |}).
  - vm_compute. discriminate.
  - reflexivity.
Defined.

Lemma handleSubmit_settles_witness :
  ∃ st' evs,
    QuestionUpload.handleSubmit Sample.env_down
      {| QuestionUpload.onQuestionsProcessed := false |} Sample.asking []
    = (Eff.Return tt, st', evs)
    ∧ QuestionUpload.loading st' = false.
Proof.
  destruct (handleSubmit_settles Sample.env_down
              {| QuestionUpload.onQuestionsProcessed := false |} Sample.asking [])
    as (st' & evs & E & Hl & _).
  - vm_compute. discriminate.
  - by exists st', evs.
Defined.

Lemma handleSubmit_twice_witness :
  let first := QuestionUpload.handleSubmit Sample.env
                 {| QuestionUpload.onQuestionsProcessed := true |} Sample.asking [] in
  requests_of
    (QuestionUpload.handleSubmit Sample.env
       {| QuestionUpload.onQuestionsProcessed := true |} first.1.2 first.2).2
  = [QuestionUpload.single_request "Ana konular nelerdir?"].
Proof.
  refine (proj1 (proj2 (handleSubmit_twice Sample.env
    {| QuestionUpload.onQuestionsProcessed := true |} Sample.asking []
    {| data := Sample.answer |} _ _))).
  - vm_compute. discriminate.
  - reflexivity.
Defined.

(** The check of the extension is case sensitive. *)
Lemma handleJSONUpload_refuses_witness :
  ∃ evs,
    QuestionUpload.handleJSONUpload Sample.env
      {| QuestionUpload.onQuestionsProcessed := true |}
      (Sample.json_tab Sample.questions_upper) []
    = (Eff.Return tt, Sample.json_tab Sample.questions_upper, evs)
    ∧ requests_of evs = [].
Proof.
  destruct (handleJSONUpload_refuses Sample.env
              {| QuestionUpload.onQuestionsProcessed := true |}
              (Sample.json_tab Sample.questions_upper) [])
    as (evs & E & Hreq & _).
  - intros file [= <-]. reflexivity.
  - by exists evs.
Defined.

Lemma handleJSONUpload_uploads_witness :
  ∃ evs,
    (QuestionUpload.handleJSONUpload Sample.env
       {| QuestionUpload.onQuestionsProcessed := true |}
       (Sample.json_tab Sample.questions_json) []).2 = evs
    ∧ OnQuestionsProcessed Sample.batch ∈ evs.
Proof.
  destruct (handleJSONUpload_uploads Sample.env
              {| QuestionUpload.onQuestionsProcessed := true |}
              (Sample.json_tab Sample.questions_json).1
              (Sample.json_tab Sample.questions_json).2
              Sample.questions_json [] [] eq_refl eq_refl)
    as (evs & E & _ & _ & Hcb).
  exists evs. split.
  - change (Sample.json_tab Sample.questions_json)
      with ((Sample.json_tab Sample.questions_json).1,
            (Sample.json_tab Sample.questions_json).2).
    by rewrite E.
  - apply Hcb. by split.
Defined.

Lemma drop_lists_results_witness :
  ∃ results rest,
    DocumentUpload.drop Sample.env_down {| DocumentUpload.onUploadComplete := true |}
      [Sample.report; Sample.archive] Sample.listing []
    = (Eff.Return tt,
       {| DocumentUpload.uploading := false;
          DocumentUpload.uploadedFiles :=
            results ++ DocumentUpload.uploadedFiles Sample.listing;
          DocumentUpload.dragActive := false |},
       [ToastError "archive.zip: Desteklenmeyen format"] ++ rest)
    ∧ length results = 1
    ∧ results !! 0
      = Some {| UploadedFile.document_id := None;
                UploadedFile.name := "report.pdf";
                UploadedFile.status := UploadedFile.error;
                UploadedFile.data := None;
                UploadedFile.chunk_count := JS.Undefined;
                UploadedFile.error_detail := Some "Yükleme hatası" |}.
Proof.
  destruct (drop_lists_results Sample.env_down
              {| DocumentUpload.onUploadComplete := true |} Sample.listing []
              [Sample.report; Sample.archive] eq_refl)
    as (results & rest & E & _ & _ & _ & Hlen & Htie).
  exists results, rest. split; [exact E |]. split; [exact Hlen |].
  exact (Htie 0 Sample.report eq_refl).
Defined.

Lemma drop_reports_rejections_witness :
  ∃ rest,
    (DocumentUpload.drop Sample.env {| DocumentUpload.onUploadComplete := true |}
       [Sample.archive; Sample.report; Sample.scan] Sample.idle []).2
    = [ToastError "archive.zip: Desteklenmeyen format";
       ToastError "scan.pdf: Dosya çok büyük (max 10MB)"] ++ rest.
Proof.
  destruct (drop_reports_rejections Sample.env
              {| DocumentUpload.onUploadComplete := true |} Sample.idle []
              [Sample.archive; Sample.report; Sample.scan] eq_refl)
    as (rest & E & _).
  exists rest. exact E.
Defined.

Lemma handleDelete_cancelled_witness :
  DocumentUpload.handleDelete Sample.env_declining
    {| DocumentUpload.onUploadComplete := true |} "doc-a" "Belge (4 chunk)"
    Sample.listing []
  = (Eff.Return tt, Sample.listing,
     [ConfirmDialog (DocumentUpload.delete_dialog "Belge (4 chunk)")]).
Proof.
  apply (handleDelete_cancelled Sample.env_declining
           {| DocumentUpload.onUploadComplete := true |} Sample.listing []
           "doc-a" "Belge (4 chunk)").
  reflexivity.
Defined.

Lemma handleDelete_failed_witness :
  (DocumentUpload.handleDelete Sample.env_down
     {| DocumentUpload.onUploadComplete := true |} "doc-a" "Belge (4 chunk)"
     Sample.listing []).1
  = (Eff.Return tt, Sample.listing).
Proof.
  rewrite (handleDelete_failed Sample.env_down
             {| DocumentUpload.onUploadComplete := true |} Sample.listing []
             "doc-a" "Belge (4 chunk)"
             {| detail := None; message := "Network Error" |} eq_refl eq_refl).
  reflexivity.
Defined.

Lemma handleDelete_twice_witness :
  let first := DocumentUpload.handleDelete Sample.env
                 {| DocumentUpload.onUploadComplete := false |} "doc-a"
                 "Belge (4 chunk)" Sample.listing [] in
  DocumentUpload.uploadedFiles
    (DocumentUpload.handleDelete Sample.env
       {| DocumentUpload.onUploadComplete := false |} "doc-b" "Belge (4 chunk)"
       first.1.2 first.2).1.2
  = [Sample.failed_upload].
Proof.
  intros first. subst first.
  rewrite (handleDelete_twice Sample.env
             {| DocumentUpload.onUploadComplete := false |} Sample.listing []
             "doc-a" "doc-b" "Belge (4 chunk)" "Belge (4 chunk)"
             {| data := tt |} {| data := tt |} eq_refl eq_refl eq_refl eq_refl).
  reflexivity.
Defined.

Lemma answer_reaches_results_witness :
  let run := QuestionUpload.handleSubmit Sample.env
               {| QuestionUpload.onQuestionsProcessed := true |} Sample.asking [] in
  ∃ batch,
    App.qaResult
      (App.deliver Sample.backend (drop 0 run.2) Sample.app_start run.2).1.2
    = Some batch
    ∧ QuestionBatch.results batch = [Sample.answer].
Proof.
  destruct (answer_reaches_results Sample.env Sample.backend Sample.asking []
              Sample.app_start {| data := Sample.answer |})
    as [(batch & Hq & _ & _ & _ & Hres) _].
  - vm_compute. discriminate.
  - reflexivity.
  - by exists batch.
Defined.

Lemma delete_reloads_stats_witness :
  let run := DocumentUpload.handleDelete Sample.env
               {| DocumentUpload.onUploadComplete := true |} "doc-a"
               "Belge (4 chunk)" Sample.listing [] in
  requests_of (App.deliver Sample.backend (drop 0 run.2) Sample.app_start run.2).2
  = [DocumentUpload.delete_request "doc-a"; Api.stats_request].
Proof.
  refine (proj1 (delete_reloads_stats Sample.env Sample.backend Sample.listing []
                   Sample.app_start "doc-a" "Belge (4 chunk)" {| data := tt |} _ _));
    reflexivity.
Defined.

Lemma getQuestionTypeLabel_falls_back_witness :
  ResultsView.getQuestionTypeLabel "essay" = JSObject.Own "❓ Soru"
  ∧ ResultsView.getQuestionTypeLabel "true_false" = JSObject.Own "⚖️ Doğru/Yanlış".
Proof.
  split.
  - apply (getQuestionTypeLabel_falls_back "essay"). set_solver.
  - apply (getQuestionTypeLabel_falls_back "true_false"). set_solver.
Defined.

Lemma VerificationBadge_fails_exactly_witness :
  ResultsView.VerificationBadge "pending" = ResultsView.VerificationBadge "unverified"
  ∧ ResultsView.VerificationBadge "toString" = inl ResultsView.InvalidElementType.
Proof.
  split.
  - apply (proj2 (VerificationBadge_fails_exactly "pending")); [set_solver | done..].
  - apply (proj1 (VerificationBadge_fails_exactly "toString")). set_solver.
Defined.
